(** * Scan2Eat: wallet ledger, meal catalog, scan and refund handlers

    A shallow embedding of the request handlers of [app.py] over the five
    tables of [models.py], followed by the properties of the wallet
    ledger, the scan transaction and the refund workflow.

    Conventions of the embedding.
    - A table is the list of its rows in insertion order; primary keys come
      from a per-table sequence kept in the database state (the configured
      store is PostgreSQL, whose serial columns draw from a sequence).
    - [Float] money columns are exact integers counting hundredths of a
      rupee (50.00 is 5000); rounding and the non-finite floats are outside
      the model.
    - [DateTime] values are integers counting microseconds, [Date] values
      integers counting days; the clock readings [datetime.now()] and
      [date.today()] are arguments of the handlers that read them.
    - A handler takes the database and the request data and returns its
      response together with the database after the request; an uncaught
      exception or an abort gives back the database it started from
      (nothing was committed).
    - [password_hash] and [qr_code_path] hold the outputs of bcrypt and of
      the QR image writer; they play no part in any handler decision and are
      left out of the [User] row. *)

From Stdlib Require Import String Ascii ZArith List Bool Lia.
Import ListNotations.
Local Open Scope Z_scope.

(** ** models.py *)

Inductive Role := RoleAdmin | RoleStudent.

Definition Role_eqb (a b : Role) : bool :=
  match a, b with
  | RoleAdmin, RoleAdmin | RoleStudent, RoleStudent => true
  | _, _ => false
  end.

Inductive TransactionType := credit | debit.

Inductive Status := pending | approved | rejected.

Definition Status_eqb (a b : Status) : bool :=
  match a, b with
  | pending, pending | approved, approved | rejected, rejected => true
  | _, _ => false
  end.

(** The four description templates written into [wallet_transactions]. *)
Inductive Description :=
| InitialWalletBalance
| BalanceAddedByAdmin
| MealOn (meal_type : string) (date : Z)
| RefundFor (meal_type : string) (date : Z).

Module User.
Record t := mk {
  id : Z;
  username : string;
  name : string;
  role : Role;
  room_number : option string;
  wallet_balance : Z;
  created_at : Z;
  is_active : bool
}.
Definition set_wallet_balance (b : Z) (u : t) : t :=
  mk (id u) (username u) (name u) (role u) (room_number u) b
     (created_at u) (is_active u).
Definition set_is_active (b : bool) (u : t) : t :=
  mk (id u) (username u) (name u) (role u) (room_number u)
     (wallet_balance u) (created_at u) b.
Definition set_profile (n : string) (r : option string) (u : t) : t :=
  mk (id u) (username u) n (role u) r (wallet_balance u)
     (created_at u) (is_active u).
End User.

Module WalletTransaction.
Record t := mk {
  id : Z;
  user_id : Z;
  amount : Z;
  transaction_type : TransactionType;
  description : Description;
  balance_after : Z;
  created_at : Z
}.
End WalletTransaction.

Module Meal.
Record t := mk {
  id : Z;
  date : Z;
  meal_type : string;
  price : Z;
  menu_items : option string;
  is_active : bool;
  created_at : Z
}.
Definition set_is_active (b : bool) (m : t) : t :=
  mk (id m) (date m) (meal_type m) (price m) (menu_items m) b (created_at m).
End Meal.

Module Attendance.
Record t := mk {
  id : Z;
  user_id : Z;
  meal_id : Z;
  amount_paid : Z;
  scanned_at : Z
}.
End Attendance.

Module RefundRequest.
Record t := mk {
  id : Z;
  user_id : Z;
  attendance_id : Z;
  amount : Z;
  reason : string;
  status : Status;
  admin_remarks : option string;
  created_at : Z;
  processed_at : option Z
}.
Definition resolve (st : Status) (remarks : string) (now : Z) (r : t) : t :=
  mk (id r) (user_id r) (attendance_id r) (amount r) (reason r) st
     (Some remarks) (created_at r) (Some now).
End RefundRequest.

(** The database: the five tables and their primary-key sequences. *)
Record DB := mkDB {
  users : list User.t;
  wallet_transactions : list WalletTransaction.t;
  meals : list Meal.t;
  attendance : list Attendance.t;
  refund_requests : list RefundRequest.t;
  users_id_seq : Z;
  wallet_transactions_id_seq : Z;
  meals_id_seq : Z;
  attendance_id_seq : Z;
  refund_requests_id_seq : Z
}.

Definition empty_db : DB := mkDB [] [] [] [] [] 1 1 1 1 1.

(** ** Queries *)

(** [User.query.get(i)] *)
Definition get_user (s : DB) (i : Z) : option User.t :=
  find (fun u => User.id u =? i) (users s).

(** [User.query.filter_by(username=n).first()] *)
Definition user_by_username (s : DB) (n : string) : option User.t :=
  find (fun u => String.eqb (User.username u) n) (users s).

(** [User.query.filter_by(username=n, role='student').first()] *)
Definition student_by_username (s : DB) (n : string) : option User.t :=
  find (fun u => String.eqb (User.username u) n
                 && Role_eqb (User.role u) RoleStudent) (users s).

(** [Meal.query.get(i)] *)
Definition get_meal (s : DB) (i : Z) : option Meal.t :=
  find (fun m => Meal.id m =? i) (meals s).

(** [Meal.query.filter_by(date=d, meal_type=t).first()] *)
Definition meal_by_slot (s : DB) (d : Z) (t : string) : option Meal.t :=
  find (fun m => (Meal.date m =? d) && String.eqb (Meal.meal_type m) t)
       (meals s).

(** [Meal.query.filter(Meal.date == d, Meal.meal_type == t, Meal.id != i).first()] *)
Definition other_meal_by_slot (s : DB) (d : Z) (t : string) (i : Z)
  : option Meal.t :=
  find (fun m => (Meal.date m =? d) && String.eqb (Meal.meal_type m) t
                 && negb (Meal.id m =? i)) (meals s).

(** [Attendance.query.get(i)] *)
Definition get_attendance (s : DB) (i : Z) : option Attendance.t :=
  find (fun a => Attendance.id a =? i) (attendance s).

(** [Attendance.query.filter_by(user_id=u, meal_id=m).first()] *)
Definition attendance_of (s : DB) (u m : Z) : option Attendance.t :=
  find (fun a => (Attendance.user_id a =? u) && (Attendance.meal_id a =? m))
       (attendance s).

(** [Attendance.query.filter_by(meal_id=m).count()] *)
Definition attendance_count (s : DB) (m : Z) : nat :=
  length (filter (fun a => Attendance.meal_id a =? m) (attendance s)).

(** [RefundRequest.query.get(i)] *)
Definition get_refund_request (s : DB) (i : Z) : option RefundRequest.t :=
  find (fun r => RefundRequest.id r =? i) (refund_requests s).

(** [RefundRequest.query.filter_by(attendance_id=a).first()] *)
Definition refund_request_for (s : DB) (a : Z) : option RefundRequest.t :=
  find (fun r => RefundRequest.attendance_id r =? a) (refund_requests s).

(** [WalletTransaction.query.filter_by(user_id=u)], oldest first. *)
Definition history (s : DB) (u : Z) : list WalletTransaction.t :=
  filter (fun e => WalletTransaction.user_id e =? u) (wallet_transactions s).

(** The most recently appended ledger entry of account [u], if any. *)
Definition latest_entry (s : DB) (u : Z) : option WalletTransaction.t :=
  match rev (history s u) with
  | [] => None
  | e :: _ => Some e
  end.

(** ** Writes *)

(** [UPDATE users SET ... WHERE users.id = i] *)
Definition update_user (i : Z) (f : User.t -> User.t) (s : DB) : DB :=
  mkDB (map (fun u => if User.id u =? i then f u else u) (users s))
       (wallet_transactions s) (meals s) (attendance s) (refund_requests s)
       (users_id_seq s) (wallet_transactions_id_seq s) (meals_id_seq s)
       (attendance_id_seq s) (refund_requests_id_seq s).

(** [UPDATE meals SET ... WHERE meals.id = i] *)
Definition update_meal (i : Z) (f : Meal.t -> Meal.t) (s : DB) : DB :=
  mkDB (users s) (wallet_transactions s)
       (map (fun m => if Meal.id m =? i then f m else m) (meals s))
       (attendance s) (refund_requests s)
       (users_id_seq s) (wallet_transactions_id_seq s) (meals_id_seq s)
       (attendance_id_seq s) (refund_requests_id_seq s).

(** [UPDATE refund_requests SET ... WHERE refund_requests.id = i] *)
Definition update_refund_request (i : Z)
  (f : RefundRequest.t -> RefundRequest.t) (s : DB) : DB :=
  mkDB (users s) (wallet_transactions s) (meals s) (attendance s)
       (map (fun r => if RefundRequest.id r =? i then f r else r)
            (refund_requests s))
       (users_id_seq s) (wallet_transactions_id_seq s) (meals_id_seq s)
       (attendance_id_seq s) (refund_requests_id_seq s).

(** [DELETE FROM meals WHERE meals.id = i] *)
Definition delete_meal_row (i : Z) (s : DB) : DB :=
  mkDB (users s) (wallet_transactions s)
       (filter (fun m => negb (Meal.id m =? i)) (meals s))
       (attendance s) (refund_requests s)
       (users_id_seq s) (wallet_transactions_id_seq s) (meals_id_seq s)
       (attendance_id_seq s) (refund_requests_id_seq s).

(** [db.session.add(User(...))]: the row takes the next value of the
    sequence; [wallet_balance] and [is_active] are given by the caller
    (the column defaults are 0.0 and True). *)
Definition add_user (n nm : string) (r : Role) (room : option string)
  (bal : Z) (now : Z) (s : DB) : DB :=
  mkDB (users s ++ [User.mk (users_id_seq s) n nm r room bal now true])
       (wallet_transactions s) (meals s) (attendance s) (refund_requests s)
       (users_id_seq s + 1) (wallet_transactions_id_seq s) (meals_id_seq s)
       (attendance_id_seq s) (refund_requests_id_seq s).

(** [db.session.add(WalletTransaction(...))] *)
Definition add_wallet_transaction (u amt : Z) (ty : TransactionType)
  (d : Description) (after : Z) (now : Z) (s : DB) : DB :=
  mkDB (users s)
       (wallet_transactions s ++
        [WalletTransaction.mk (wallet_transactions_id_seq s) u amt ty d
                              after now])
       (meals s) (attendance s) (refund_requests s)
       (users_id_seq s) (wallet_transactions_id_seq s + 1) (meals_id_seq s)
       (attendance_id_seq s) (refund_requests_id_seq s).

(** [db.session.add(Meal(...))]; [is_active] defaults to True. *)
Definition add_meal (d : Z) (t : string) (p : Z) (menu : option string)
  (now : Z) (s : DB) : DB :=
  mkDB (users s) (wallet_transactions s)
       (meals s ++ [Meal.mk (meals_id_seq s) d t p menu true now])
       (attendance s) (refund_requests s)
       (users_id_seq s) (wallet_transactions_id_seq s) (meals_id_seq s + 1)
       (attendance_id_seq s) (refund_requests_id_seq s).

(** [db.session.add(Attendance(...))]; [scanned_at] defaults to now. *)
Definition add_attendance (u m paid : Z) (now : Z) (s : DB) : DB :=
  mkDB (users s) (wallet_transactions s) (meals s)
       (attendance s ++ [Attendance.mk (attendance_id_seq s) u m paid now])
       (refund_requests s)
       (users_id_seq s) (wallet_transactions_id_seq s) (meals_id_seq s)
       (attendance_id_seq s + 1) (refund_requests_id_seq s).

(** [db.session.add(RefundRequest(...))]; [status] defaults to 'pending',
    [admin_remarks] and [processed_at] to NULL. *)
Definition add_refund_request (u a amt : Z) (reason : string) (now : Z)
  (s : DB) : DB :=
  mkDB (users s) (wallet_transactions s) (meals s) (attendance s)
       (refund_requests s ++
        [RefundRequest.mk (refund_requests_id_seq s) u a amt reason pending
                          None now None])
       (users_id_seq s) (wallet_transactions_id_seq s) (meals_id_seq s)
       (attendance_id_seq s) (refund_requests_id_seq s + 1).

(** ** app.py: responses *)

(** What a handler answers: one constructor per flash message or JSON
    body, carrying the values the message interpolates. *)
Inductive Response :=
| NotFound404                       (* get_or_404 found no row *)
| InternalError500                  (* uncaught exception, session rolled back *)
| RedirectLogin                     (* login_required: nobody is logged in *)
| AdminUserCreated
| AdminUserExists
| InvalidRollNumber
| RollNumberAlreadyRegistered
| StudentRegistered (name : string)
| StudentUpdated (name : string)
| InvalidStudent
| StudentStatusDeactivated (name : string)
| StudentStatusToggled (name : string) (is_active : bool)
| BalanceAdded (amount : Z) (name : string)
| StudentNotFoundFlash
| InvalidAmount
| ApiStudentNotFound
| ApiBalanceAdded (amount new_balance : Z)
| MealAlreadyExists
| MealAdded
| AnotherMealExists
| MealUpdated
| MealHasAttendance
| MealDeleted
| MealToggled (is_active : bool)
| StudentNotFound                   (* spec: AccountNotFoundError *)
| StudentDeactivated                (* spec: AccountDeactivatedError *)
| MealNotFound                      (* spec: MealNotFoundError *)
| AlreadyScanned (name : string)    (* spec: AlreadyScannedError *)
| InsufficientBalance (balance : Z) (* spec: InsufficientFundsError *)
| ScanSuccess (student_name meal_type : string) (amount new_balance : Z)
| Unauthorized                      (* spec: UnauthorizedError *)
| RefundAlreadyRequested            (* spec: DuplicateRefundRequestError *)
| RefundWindowExpired               (* spec: RefundWindowExpiredError *)
| RefundSubmitted
| RequestAlreadyProcessed           (* spec: AlreadyProcessedError *)
| RefundApproved (amount : Z)
| RefundRejected
| InvalidAction.                    (* spec: InvalidActionError *)

(** The responses whose JSON body carries ['success': True]. *)
Definition success (r : Response) : bool :=
  match r with
  | ScanSuccess _ _ _ _ | RefundSubmitted | RefundApproved _
  | RefundRejected | MealDeleted | MealToggled _ | ApiBalanceAdded _ _
  | StudentStatusDeactivated _ | StudentStatusToggled _ _ => true
  | _ => false
  end.

(** ** app.py: roll numbers *)

Definition code (c : ascii) : Z := Z.of_N (N_of_ascii c).

Definition is_digit (c : ascii) : bool := (48 <=? code c) && (code c <=? 57).

Definition is_alpha (c : ascii) : bool :=
  ((65 <=? code c) && (code c <=? 90)) || ((97 <=? code c) && (code c <=? 122)).

(** The longest prefix of characters in a class, as its length and the
    rest of the string. *)
Fixpoint span (p : ascii -> bool) (s : string) : nat * string :=
  match s with
  | String c r =>
      if p c then let (n, r') := span p r in (S n, r') else (O, s)
  | EmptyString => (O, s)
  end.

Definition hyphen : ascii := ascii_of_nat 45.
Definition newline : ascii := ascii_of_nat 10.

(** A leading hyphen, removed. *)
Definition after_hyphen (s : string) : option string :=
  match s with
  | String c r => if Ascii.eqb c hyphen then Some r else None
  | EmptyString => None
  end.

(** [$]: the end of the string, or just before a final newline. *)
Definition at_end (s : string) : bool :=
  match s with
  | EmptyString => true
  | String c EmptyString => Ascii.eqb c newline
  | _ => false
  end.

(** [re.match(r'^\d{4}-[A-Za-z]{2,5}-\d{1,4}$', s)] on ASCII input. The
    three classes and the hyphen are disjoint, so each repetition takes
    the whole run of its class. *)
Definition roll_pattern_match (s : string) : bool :=
  let (n1, r1) := span is_digit s in
  if negb (Nat.eqb n1 4) then false else
  match after_hyphen r1 with
  | None => false
  | Some r2 =>
      let (n2, r3) := span is_alpha r2 in
      if negb (Nat.leb 2 n2 && Nat.leb n2 5) then false else
      match after_hyphen r3 with
      | None => false
      | Some r4 =>
          let (n3, r5) := span is_digit r4 in
          Nat.leb 1 n3 && Nat.leb n3 4 && at_end r5
      end
  end.

Definition upper_char (c : ascii) : ascii :=
  if (97 <=? code c) && (code c <=? 122)
  then ascii_of_N (Z.to_N (code c - 32)) else c.

(** [str.upper()] on ASCII input. *)
Fixpoint upper (s : string) : string :=
  match s with
  | String c r => String (upper_char c) (upper r)
  | EmptyString => EmptyString
  end.

(** ** app.py: handlers *)

(** [init_database] of init_db.py *)
Definition init_database (s : DB) (now : Z) : Response * DB :=
  match user_by_username s "admin"%string with
  | None =>
      (AdminUserCreated,
       add_user "admin"%string "Administrator"%string RoleAdmin None 0 now s)
  | Some _ => (AdminUserExists, s)
  end.

(** The [before_request] hook. *)
Definition deactivate_past_meals (today : Z) (s : DB) : DB :=
  mkDB (users s) (wallet_transactions s)
       (map (fun m => if (Meal.date m <? today) && Meal.is_active m
                      then Meal.set_is_active false m else m) (meals s))
       (attendance s) (refund_requests s)
       (users_id_seq s) (wallet_transactions_id_seq s) (meals_id_seq s)
       (attendance_id_seq s) (refund_requests_id_seq s).

Definition register_student (s : DB) (now : Z) (name roll_number : string)
  (room_number : option string) (initial_balance : Z) : Response * DB :=
  if negb (roll_pattern_match roll_number) then (InvalidRollNumber, s) else
  let roll_number := upper roll_number in
  match user_by_username s roll_number with
  | Some _ => (RollNumberAlreadyRegistered, s)
  | None =>
      let new_user_id := users_id_seq s in
      let s := add_user roll_number name RoleStudent room_number
                        initial_balance now s in
      let s := if 0 <? initial_balance
               then add_wallet_transaction new_user_id initial_balance credit
                      InitialWalletBalance initial_balance now s
               else s in
      (StudentRegistered name, s)
  end.

Definition edit_student (s : DB) (student_id : Z) (name : string)
  (room_number : option string) : Response * DB :=
  match get_user s student_id with
  | None => (NotFound404, s)
  | Some student =>
      if negb (Role_eqb (User.role student) RoleStudent)
      then (InvalidStudent, s)
      else (StudentUpdated name,
            update_user (User.id student)
                        (User.set_profile name room_number) s)
  end.

Definition delete_student (s : DB) (student_id : Z) : Response * DB :=
  match get_user s student_id with
  | None => (NotFound404, s)
  | Some student =>
      if negb (Role_eqb (User.role student) RoleStudent)
      then (InvalidStudent, s)
      else (StudentStatusDeactivated (User.name student),
            update_user (User.id student) (User.set_is_active false) s)
  end.

Definition toggle_student_status (s : DB) (student_id : Z) : Response * DB :=
  match get_user s student_id with
  | None => (NotFound404, s)
  | Some student =>
      if negb (Role_eqb (User.role student) RoleStudent)
      then (InvalidStudent, s)
      else
        let flag := negb (User.is_active student) in
        (StudentStatusToggled (User.name student) flag,
         update_user (User.id student) (User.set_is_active flag) s)
  end.

(** The ledger write shared by the top-up, scan and refund handlers:
    [student.wallet_balance += amount] followed by the
    [WalletTransaction] whose [balance_after] reads the new balance. *)
Definition apply_ledger (student : User.t) (amount : Z)
  (ty : TransactionType) (d : Description) (now : Z) (s : DB) : DB :=
  let new_balance := User.wallet_balance student + amount in
  add_wallet_transaction (User.id student) amount ty d new_balance now
    (update_user (User.id student) (User.set_wallet_balance new_balance) s).

Definition add_balance (s : DB) (now : Z) (student_id amount : Z)
  : Response * DB :=
  match get_user s student_id with
  | Some student =>
      (BalanceAdded amount (User.name student),
       apply_ledger student amount credit BalanceAddedByAdmin now s)
  | None => (StudentNotFoundFlash, s)
  end.

Definition api_add_balance (s : DB) (now : Z) (student_id amount : Z)
  : Response * DB :=
  if amount <=? 0 then (InvalidAmount, s) else
  match get_user s student_id with
  | None => (ApiStudentNotFound, s)
  | Some student =>
      (ApiBalanceAdded amount (User.wallet_balance student + amount),
       apply_ledger student amount credit BalanceAddedByAdmin now s)
  end.

(** [menu_items if menu_items else None] *)
Definition menu_or_none (menu_items : string) : option string :=
  match menu_items with
  | EmptyString => None
  | _ => Some menu_items
  end.

(** POST of [manage_meals]; [menu_items] is the stripped form field. *)
Definition manage_meals (s : DB) (now : Z) (meal_date : Z)
  (meal_type : string) (price : Z) (menu_items : string) : Response * DB :=
  match meal_by_slot s meal_date meal_type with
  | Some _ => (MealAlreadyExists, s)
  | None =>
      (MealAdded,
       add_meal meal_date meal_type price (menu_or_none menu_items) now s)
  end.

(** POST of [edit_meal] *)
Definition edit_meal (s : DB) (meal_id : Z) (meal_date : Z)
  (meal_type : string) (price : Z) (menu_items : string) (is_active : bool)
  : Response * DB :=
  match get_meal s meal_id with
  | None => (NotFound404, s)
  | Some meal =>
      match other_meal_by_slot s meal_date meal_type meal_id with
      | Some _ => (AnotherMealExists, s)
      | None =>
          (MealUpdated,
           update_meal (Meal.id meal)
             (fun m => Meal.mk (Meal.id m) meal_date meal_type price
                               (menu_or_none menu_items) is_active
                               (Meal.created_at m)) s)
      end
  end.

Definition lower_char (c : ascii) : ascii :=
  if (65 <=? code c) && (code c <=? 90)
  then ascii_of_N (Z.to_N (code c + 32)) else c.

Fixpoint lower (s : string) : string :=
  match s with
  | String c r => String (lower_char c) (lower r)
  | EmptyString => EmptyString
  end.

(** [str.capitalize()] on ASCII input. *)
Definition capitalize (s : string) : string :=
  match s with
  | String c r => String (upper_char c) (lower r)
  | EmptyString => EmptyString
  end.

Definition process_scan (s : DB) (now : Z) (roll_number : string)
  (meal_id : Z) : Response * DB :=
  match student_by_username s roll_number with
  | None => (StudentNotFound, s)
  | Some student =>
      if negb (User.is_active student) then (StudentDeactivated, s) else
      match get_meal s meal_id with
      | None => (MealNotFound, s)
      | Some meal =>
          match attendance_of s (User.id student) (Meal.id meal) with
          | Some _ => (AlreadyScanned (User.name student), s)
          | None =>
              if User.wallet_balance student <? Meal.price meal
              then (InsufficientBalance (User.wallet_balance student), s)
              else
                let s := apply_ledger student (- Meal.price meal) debit
                           (MealOn (capitalize (Meal.meal_type meal))
                                   (Meal.date meal)) now s in
                let s := add_attendance (User.id student) (Meal.id meal)
                           (Meal.price meal) now s in
                (ScanSuccess (User.name student) (Meal.meal_type meal)
                   (Meal.price meal)
                   (User.wallet_balance student - Meal.price meal), s)
          end
      end
  end.

(** [timedelta(hours=24)] in microseconds. *)
Definition hours_24 : Z := 24 * 3600 * 1000000.

(** [current_user_id] is the logged-in account of the session. *)
Definition request_refund (s : DB) (now : Z) (current_user_id : Z)
  (attendance_id : Z) (reason : string) : Response * DB :=
  match get_user s current_user_id with
  | None => (RedirectLogin, s)
  | Some current_user =>
      if negb (Role_eqb (User.role current_user) RoleStudent)
      then (Unauthorized, s) else
      match get_attendance s attendance_id with
      | None => (NotFound404, s)
      | Some att =>
          if negb (Attendance.user_id att =? User.id current_user)
          then (Unauthorized, s) else
          match refund_request_for s attendance_id with
          | Some _ => (RefundAlreadyRequested, s)
          | None =>
              if hours_24 <? now - Attendance.scanned_at att
              then (RefundWindowExpired, s)
              else
                (RefundSubmitted,
                 add_refund_request (User.id current_user) attendance_id
                   (Attendance.amount_paid att) reason now s)
          end
      end
  end.

Definition is_action (a : option string) (v : string) : bool :=
  match a with
  | Some x => String.eqb x v
  | None => false
  end.

(** [action] is [request.json.get('action')], absent as [None]. Reading
    [refund_request.user], [.attendance] or [.attendance.meal] of a row
    whose reference dangles raises AttributeError. *)
Definition process_refund (s : DB) (now : Z) (request_id : Z)
  (action : option string) (remarks : string) : Response * DB :=
  match get_refund_request s request_id with
  | None => (NotFound404, s)
  | Some refund_request =>
      if negb (Status_eqb (RefundRequest.status refund_request) pending)
      then (RequestAlreadyProcessed, s) else
      if is_action action "approve" then
        match get_user s (RefundRequest.user_id refund_request) with
        | None => (InternalError500, s)
        | Some student =>
            match get_attendance s
                    (RefundRequest.attendance_id refund_request) with
            | None => (InternalError500, s)
            | Some att =>
                match get_meal s (Attendance.meal_id att) with
                | None => (InternalError500, s)
                | Some meal =>
                    let s := apply_ledger student
                               (RefundRequest.amount refund_request) credit
                               (RefundFor (Meal.meal_type meal)
                                          (Meal.date meal)) now s in
                    let s := update_refund_request
                               (RefundRequest.id refund_request)
                               (RefundRequest.resolve approved remarks now)
                               s in
                    (RefundApproved (RefundRequest.amount refund_request), s)
                end
            end
        end
      else if is_action action "reject" then
        (RefundRejected,
         update_refund_request (RefundRequest.id refund_request)
           (RefundRequest.resolve rejected remarks now) s)
      else (InvalidAction, s)
  end.

Definition delete_meal (s : DB) (meal_id : Z) : Response * DB :=
  match get_meal s meal_id with
  | None => (NotFound404, s)
  | Some meal =>
      if Nat.ltb 0 (attendance_count s (Meal.id meal))
      then (MealHasAttendance, s)
      else (MealDeleted, delete_meal_row (Meal.id meal) s)
  end.

(** [given] is [data.get('is_active')], absent as [None]. *)
Definition toggle_meal (s : DB) (meal_id : Z) (given : option bool)
  : Response * DB :=
  match get_meal s meal_id with
  | None => (NotFound404, s)
  | Some meal =>
      let flag := match given with
                  | Some b => b
                  | None => negb (Meal.is_active meal)
                  end in
      (MealToggled flag,
       update_meal (Meal.id meal) (Meal.set_is_active flag) s)
  end.

(** ** Runs of the application *)

(** The state-changing requests, each with the data its handler reads. *)
Inductive Request :=
| InitDatabase
| RegisterStudent (name roll_number : string) (room_number : option string)
                  (initial_balance : Z)
| EditStudent (student_id : Z) (name : string) (room_number : option string)
| DeleteStudent (student_id : Z)
| ToggleStudentStatus (student_id : Z)
| AddBalance (student_id amount : Z)
| ApiAddBalance (student_id amount : Z)
| ManageMeals (meal_date : Z) (meal_type : string) (price : Z)
              (menu_items : string)
| EditMeal (meal_id meal_date : Z) (meal_type : string) (price : Z)
           (menu_items : string) (is_active : bool)
| DeleteMeal (meal_id : Z)
| ToggleMeal (meal_id : Z) (given : option bool)
| ProcessScan (roll_number : string) (meal_id : Z)
| RequestRefund (current_user_id attendance_id : Z) (reason : string)
| ProcessRefund (request_id : Z) (action : option string) (remarks : string).

(** The two clock readings taken while a request is served. *)
Record Clock := mkClock { today : Z; now : Z }.

Definition dispatch (c : Clock) (q : Request) (s : DB) : Response * DB :=
  match q with
  | InitDatabase => init_database s (now c)
  | RegisterStudent n r room b => register_student s (now c) n r room b
  | EditStudent i n room => edit_student s i n room
  | DeleteStudent i => delete_student s i
  | ToggleStudentStatus i => toggle_student_status s i
  | AddBalance i a => add_balance s (now c) i a
  | ApiAddBalance i a => api_add_balance s (now c) i a
  | ManageMeals d t p m => manage_meals s (now c) d t p m
  | EditMeal i d t p m a => edit_meal s i d t p m a
  | DeleteMeal i => delete_meal s i
  | ToggleMeal i g => toggle_meal s i g
  | ProcessScan r m => process_scan s (now c) r m
  | RequestRefund u a r => request_refund s (now c) u a r
  | ProcessRefund i a r => process_refund s (now c) i a r
  end.

(** One served request: the [before_request] sweep, then the handler.
    [init_database] is a script run outside the web application, so no
    sweep precedes it. *)
Definition handle (c : Clock) (q : Request) (s : DB) : Response * DB :=
  match q with
  | InitDatabase => dispatch c q s
  | _ => dispatch c q (deactivate_past_meals (today c) s)
  end.

(** The database after a sequence of requests, served one at a time. *)
Fixpoint run (l : list (Clock * Request)) (s : DB) : DB :=
  match l with
  | [] => s
  | (c, q) :: l' => run l' (snd (handle c q s))
  end.

(** The databases the application can be in, from the empty one. *)
Inductive reachable : DB -> Prop :=
| reachable_empty : reachable empty_db
| reachable_handle c q s : reachable s -> reachable (snd (handle c q s)).

(** ** Invariants of the reachable databases *)

(** The balance of an account against its ledger: the [balance_after] of
    the latest entry, and a balance that is not positive when the account
    has no entry. *)
Definition ledger_backed (s : DB) (u : User.t) : Prop :=
  match latest_entry s (User.id u) with
  | Some e => User.wallet_balance u = WalletTransaction.balance_after e
  | None => User.wallet_balance u <= 0
  end.


Definition att_key (a : Attendance.t) : Z * Z :=
  (Attendance.user_id a, Attendance.meal_id a).

Record Inv (s : DB) : Prop := mkInv {
  inv_user_ids :
    forall u, In u (users s) -> User.id u < users_id_seq s;
  inv_user_nodup : NoDup (map User.id (users s));
  inv_ledger_users :
    forall e, In e (wallet_transactions s) ->
      WalletTransaction.user_id e < users_id_seq s;
  inv_balance : forall u, In u (users s) -> ledger_backed s u;
  inv_att_nodup : NoDup (map att_key (attendance s));
  inv_att_ids :
    forall a, In a (attendance s) -> Attendance.id a < attendance_id_seq s;
  inv_att_user :
    forall a, In a (attendance s) ->
      exists u, get_user s (Attendance.user_id a) = Some u
                /\ User.role u = RoleStudent;
  inv_att_meal :
    forall a, In a (attendance s) ->
      exists m, In m (meals s) /\ Meal.id m = Attendance.meal_id a;
  inv_refund_att :
    forall r, In r (refund_requests s) ->
      exists a, get_attendance s (RefundRequest.attendance_id r) = Some a
                /\ RefundRequest.amount r = Attendance.amount_paid a
                /\ RefundRequest.user_id r = Attendance.user_id a
}.

(** Rewriting meal rows without touching the columns the scan reads. *)
Definition map_meals (g : Meal.t -> Meal.t) (s : DB) : DB :=
  mkDB (users s) (wallet_transactions s) (map g (meals s))
       (attendance s) (refund_requests s)
       (users_id_seq s) (wallet_transactions_id_seq s) (meals_id_seq s)
       (attendance_id_seq s) (refund_requests_id_seq s).


(** ** Sample runs *)

Definition day0 : Z := 20000.

(** A clock reading [t] microseconds into day [day0]. *)
Definition clk (t : Z) : Clock := mkClock day0 (day0 * hours_24 + t).



(** Two students, with 50.00 and 49.99, and a lunch at 50.00. *)
Definition canteen_requests : list (Clock * Request) :=
  [ (clk 0, InitDatabase);
    (clk 1, RegisterStudent "Asha Rao" "2024-cs-562" (Some "B-12"%string)
                            5000);
    (clk 2, RegisterStudent "Ravi Iyer" "2024-EE-17" None 4999);
    (clk 3, ManageMeals day0 "lunch" 5000 "rice, dal") ].

Definition canteen_db : DB := run canteen_requests empty_db.

Definition asha : User.t :=
  User.mk 2 "2024-CS-562" "Asha Rao" RoleStudent (Some "B-12"%string) 5000
          (now (clk 1)) true.

Definition ravi : User.t :=
  User.mk 3 "2024-EE-17" "Ravi Iyer" RoleStudent None 4999 (now (clk 2)) true.

Definition lunch : Meal.t :=
  Meal.mk 1 day0 "lunch" 5000 (Some "rice, dal"%string) true (now (clk 3)).

(** The lunch after the sweep of the following day. *)
Definition stale_db : DB := deactivate_past_meals (day0 + 1) canteen_db.

(** Asha scans the lunch, then asks for a refund. *)
Definition scanned_db : DB :=
  run [(clk 4, ProcessScan "2024-CS-562" 1)] canteen_db.

Definition lunch_attendance : Attendance.t :=
  Attendance.mk 1 2 1 5000 (now (clk 4)).

Definition claimed_db : DB :=
  run [(clk 5, RequestRefund 2 1 "left before lunch")] scanned_db.

Definition lunch_refund : RefundRequest.t :=
  RefundRequest.mk 1 2 1 5000 "left before lunch" pending None (now (clk 5))
                   None.

(** ** app.py: listings and reports *)

(** [Meal.query.filter_by(date=date.today(), is_active=True).all()], the
    meals [scan_qr] and [student_dashboard] list. *)
Definition today_meals (s : DB) (today : Z) : list Meal.t :=
  filter (fun m => (Meal.date m =? today) && Meal.is_active m) (meals s).

Fixpoint insert_by_scanned_at (a : Attendance.t) (l : list Attendance.t)
  : list Attendance.t :=
  match l with
  | [] => [a]
  | b :: l' =>
      if Attendance.scanned_at b <? Attendance.scanned_at a
      then a :: l
      else b :: insert_by_scanned_at a l'
  end.

(** [.order_by(Attendance.scanned_at.desc())]; rows with equal times keep
    their table order. *)
Definition order_by_scanned_at_desc (l : list Attendance.t)
  : list Attendance.t :=
  fold_right insert_by_scanned_at [] l.

(** The [eligible_attendances] of [student_refund_requests]: the
    attendances of the logged-in student scanned at or after
    [now - 24 hours] that the outer join pairs with no refund request. *)
Definition eligible_attendances (s : DB) (now current_user_id : Z)
  : list Attendance.t :=
  order_by_scanned_at_desc
    (filter (fun a =>
               (Attendance.user_id a =? current_user_id)
               && (now - hours_24 <=? Attendance.scanned_at a)
               && match refund_request_for s (Attendance.id a) with
                  | None => true
                  | Some _ => false
                  end)
            (attendance s)).







(** ** Further invariants of the reachable databases *)

Definition meal_slot (m : Meal.t) : Z * string :=
  (Meal.date m, Meal.meal_type m).

(** Student accounts are stored under upper-case user names. *)
Definition upper_names (s : DB) : Prop :=
  forall u, In u (users s) -> User.role u = RoleStudent ->
            upper (User.username u) = User.username u.



(** Keys: user names, meal ids and slots, attendance ids, refund request
    ids and the attendance a refund request names are each unique. *)
Record Keys (s : DB) : Prop := mkKeys {
  keys_usernames : NoDup (map User.username (users s));
  keys_meal_ids : forall m, In m (meals s) -> Meal.id m < meals_id_seq s;
  keys_meal_nodup : NoDup (map Meal.id (meals s));
  keys_meal_slots : NoDup (map meal_slot (meals s));
  keys_att_nodup : NoDup (map Attendance.id (attendance s));
  keys_refund_ids :
    forall r, In r (refund_requests s) ->
      RefundRequest.id r < refund_requests_id_seq s;
  keys_refund_nodup :
    NoDup (map RefundRequest.attendance_id (refund_requests s))
}.

Definition is_debit (e : WalletTransaction.t) : bool :=
  match WalletTransaction.transaction_type e with
  | debit => true
  | credit => false
  end.





(** What one request writes to accounts, ledger and attendance: nothing
    that touches a balance; or a new account, with its opening entry when
    its balance is positive; or one ledger entry on an existing account,
    which a scan pairs with one attendance. *)
Inductive Effect (s s' : DB) : Prop :=
| effect_quiet (g : User.t -> User.t) :
    (forall u, User.id (g u) = User.id u
               /\ User.username (g u) = User.username u
               /\ User.role (g u) = User.role u
               /\ User.wallet_balance (g u) = User.wallet_balance u) ->
    users s' = map g (users s) ->
    wallet_transactions s' = wallet_transactions s ->
    attendance s' = attendance s ->
    Effect s s'
| effect_new_user (new : User.t) (now : Z) :
    users s' = users s ++ [new] ->
    User.id new = users_id_seq s ->
    wallet_transactions s' =
      (if 0 <? User.wallet_balance new
       then wallet_transactions s ++
            [WalletTransaction.mk (wallet_transactions_id_seq s)
               (User.id new) (User.wallet_balance new) credit
               InitialWalletBalance (User.wallet_balance new) now]
       else wallet_transactions s) ->
    attendance s' = attendance s ->
    Effect s s'
| effect_ledger (student : User.t) (amt : Z) (ty : TransactionType)
    (d : Description) (now : Z) (scans : list Attendance.t) :
    In student (users s) ->
    users s' =
      map (fun u => if User.id u =? User.id student
                    then User.set_wallet_balance
                           (User.wallet_balance student + amt) u
                    else u) (users s) ->
    wallet_transactions s' =
      wallet_transactions s ++
      [WalletTransaction.mk (wallet_transactions_id_seq s) (User.id student)
         amt ty d (User.wallet_balance student + amt) now] ->
    attendance s' = attendance s ++ scans ->
    match ty with
    | credit => scans = []
    | debit =>
        exists meal_id,
          scans = [Attendance.mk (attendance_id_seq s) (User.id student)
                     meal_id (- amt) now]
    end ->
    Effect s s'.

(** ** Proof automation *)

Ltac break_match :=
  match goal with
  | |- context [match ?x with _ => _ end] => destruct x eqn:?
  end.

(** ** Lookups in appended and updated tables *)

Section Find.
Context {A : Type}.
Implicit Types (p : A -> bool) (g : A -> A) (l : list A).

Lemma find_app p l l' :
  find p (l ++ l') =
  match find p l with Some x => Some x | None => find p l' end.
Proof.
  induction l as [|x l IH]; simpl; [reflexivity|].
  destruct (p x); auto.
Qed.

Lemma find_app_some p l l' x :
  find p l = Some x -> find p (l ++ l') = Some x.
Proof. intros H. rewrite find_app, H. reflexivity. Qed.

Lemma find_map_stable p g l :
  (forall x, p (g x) = p x) ->
  find p (map g l) = option_map g (find p l).
Proof.
  intros Hg. induction l as [|x l IH]; simpl; [reflexivity|].
  rewrite Hg. destruct (p x); auto.
Qed.

Lemma find_In p l x : find p l = Some x -> In x l /\ p x = true.
Proof. apply find_some. Qed.

Lemma find_exists p l x :
  In x l -> p x = true -> exists y, find p l = Some y.
Proof.
  intros Hin Hp. destruct (find p l) as [y|] eqn:E; [eauto|].
  apply (find_none _ _ E) in Hin. congruence.
Qed.

End Find.

Lemma NoDup_map_inj {A B} (f : A -> B) l x y :
  NoDup (map f l) -> In x l -> In y l -> f x = f y -> x = y.
Proof.
  induction l as [|a l IH]; simpl; [tauto|].
  intros Hnd Hx Hy E. inversion Hnd as [|? ? Hnot Hnd']; subst.
  destruct Hx as [->|Hx], Hy as [->|Hy]; auto.
  - exfalso. apply Hnot. rewrite E. now apply in_map.
  - exfalso. apply Hnot. rewrite <- E. now apply in_map.
Qed.

(** ** The scan transaction *)




(** C3. The scan checks student, active flag, meal, prior attendance and
    balance in that order and stops at the first check that fails; each
    failure has its own response, and every response without success
    leaves the whole database as it was. *)
Theorem process_scan_rejects_in_order s now roll meal_id :
  let out := process_scan s now roll meal_id in
  (student_by_username s roll = None -> out = (StudentNotFound, s))
  /\ (forall student,
        student_by_username s roll = Some student ->
        (User.is_active student = false -> out = (StudentDeactivated, s))
        /\ (User.is_active student = true ->
            get_meal s meal_id = None -> out = (MealNotFound, s))
        /\ (forall meal,
              User.is_active student = true ->
              get_meal s meal_id = Some meal ->
              (forall a,
                 attendance_of s (User.id student) (Meal.id meal) = Some a ->
                 out = (AlreadyScanned (User.name student), s))
              /\ (attendance_of s (User.id student) (Meal.id meal) = None ->
                  User.wallet_balance student < Meal.price meal ->
                  out = (InsufficientBalance (User.wallet_balance student),
                         s))))
  /\ (success (fst out) = false -> snd out = s)
  /\ (forall n b,
        NoDup [StudentNotFound; StudentDeactivated; MealNotFound;
               AlreadyScanned n; InsufficientBalance b]).
Proof.
  cbv zeta. unfold process_scan. split; [|split; [|split]].
  - intros ->. reflexivity.
  - intros student Hs. rewrite Hs. split; [|split].
    + intros Ha. rewrite Ha. reflexivity.
    + intros Ha Hm. rewrite Ha, Hm. reflexivity.
    + intros meal Ha Hm. rewrite Ha, Hm. cbn [negb]. split.
      * intros a Hatt. rewrite Hatt. reflexivity.
      * intros Hatt Hb. rewrite Hatt. apply Z.ltb_lt in Hb.
        rewrite Hb. reflexivity.
  - destruct (student_by_username s roll) as [st|]; [|reflexivity].
    destruct (User.is_active st); [|reflexivity]. cbn [negb].
    destruct (get_meal s meal_id) as [m|]; [|reflexivity].
    destruct (attendance_of s (User.id st) (Meal.id m)); [reflexivity|].
    destruct (User.wallet_balance st <? Meal.price m); [reflexivity|].
    cbn [fst success]. discriminate.
  - intros n b. repeat constructor; simpl; intuition discriminate.
Qed.

(** ** The meal catalog *)


(** ** The scan and the meal's active flag *)



(** ** The refund workflow *)

Lemma get_refund_request_update s i f rid :
  (forall r, RefundRequest.id (f r) = RefundRequest.id r) ->
  get_refund_request (update_refund_request i f s) rid =
  option_map (fun r => if RefundRequest.id r =? i then f r else r)
             (get_refund_request s rid).
Proof.
  intros Hf. unfold get_refund_request, update_refund_request.
  cbn [refund_requests]. apply find_map_stable. intros r.
  destruct (RefundRequest.id r =? i); [now rewrite Hf|reflexivity].
Qed.

Lemma get_refund_request_id s rid r :
  get_refund_request s rid = Some r -> RefundRequest.id r = rid.
Proof. intros H. apply find_In in H. now apply Z.eqb_eq. Qed.

Lemma Status_eqb_eq a b : Status_eqb a b = true <-> a = b.
Proof. destruct a, b; simpl; split; congruence. Qed.

(** Handlers other than the two refund handlers leave the refund table
    alone. *)
Lemma handle_refund_requests_frame c q s :
  match q with
  | RequestRefund _ _ _ | ProcessRefund _ _ _ => True
  | _ => refund_requests (snd (handle c q s)) = refund_requests s
  end.
Proof.
  destruct q; try exact I; unfold handle, dispatch;
    unfold init_database, register_student, edit_student, delete_student,
      toggle_student_status, add_balance, api_add_balance, manage_meals,
      edit_meal, delete_meal, toggle_meal, process_scan;
    repeat break_match; reflexivity.
Qed.

(** What one request does to the row a refund request id names. *)
Lemma refund_request_step c q s rid r :
  get_refund_request s rid = Some r ->
  get_refund_request (snd (handle c q s)) rid = Some r
  \/ (RefundRequest.status r = pending
      /\ exists st remarks now,
           (st = approved \/ st = rejected)
           /\ get_refund_request (snd (handle c q s)) rid
              = Some (RefundRequest.resolve st remarks now r)).
Proof.
  intros Hr.
  pose proof (handle_refund_requests_frame c q s) as Hframe.
  destruct q;
    try (left; unfold get_refund_request in *; rewrite Hframe; exact Hr).
  - (* request_refund *)
    left. unfold handle, dispatch, request_refund.
    repeat break_match; try exact Hr.
    unfold get_refund_request, add_refund_request; cbn [snd refund_requests].
    apply find_app_some. exact Hr.
  - (* process_refund *)
    unfold handle, dispatch, process_refund.
    change (get_refund_request (deactivate_past_meals (today c) s))
      with (get_refund_request s).
    destruct (get_refund_request s request_id) as [r2|] eqn:Hr2;
      [|left; exact Hr].
    destruct (Status_eqb (RefundRequest.status r2) pending) eqn:Hst;
      cbn [negb]; [|left; exact Hr].
    apply Status_eqb_eq in Hst.
    apply get_refund_request_id in Hr2 as Hid2.
    apply get_refund_request_id in Hr as Hid.
    assert (Hupd : forall st now remarks s0,
      get_refund_request s0 rid = Some r ->
      (st = approved \/ st = rejected) ->
      get_refund_request
        (update_refund_request (RefundRequest.id r2)
           (RefundRequest.resolve st remarks now) s0) rid = Some r
      \/ (RefundRequest.status r = pending
          /\ exists st' remarks' now',
               (st' = approved \/ st' = rejected)
               /\ get_refund_request
                    (update_refund_request (RefundRequest.id r2)
                       (RefundRequest.resolve st remarks now) s0) rid
                  = Some (RefundRequest.resolve st' remarks' now' r))).
    { intros st now0 remarks0 s0 Hr0 Hst0.
      rewrite get_refund_request_update by reflexivity.
      rewrite Hr0. cbn [option_map].
      destruct (RefundRequest.id r =? RefundRequest.id r2) eqn:E.
      - right. apply Z.eqb_eq in E.
        assert (r2 = r) by congruence. subst r2.
        split; [assumption|]. exists st, remarks0, now0. now split.
      - now left. }
    destruct (is_action action "approve").
    + repeat break_match; try (left; exact Hr).
      cbn [snd]. apply Hupd; [exact Hr|now left].
    + destruct (is_action action "reject"); [|left; exact Hr].
      cbn [snd]. apply Hupd; [exact Hr|now right].
Qed.

(** C7. Under every request, the row a refund request id names keeps its
    status or moves from pending to approved or to rejected, and a row
    that is approved or rejected is left exactly as it is. Rejecting a
    pending request writes neither the ledger nor any balance. An action
    other than approve and reject changes nothing, and on a pending
    request it is answered as an invalid action. *)
Theorem refund_request_transitions s :
  (forall c q rid r,
     get_refund_request s rid = Some r ->
     exists r',
       get_refund_request (snd (handle c q s)) rid = Some r'
       /\ (RefundRequest.status r' = RefundRequest.status r
           \/ (RefundRequest.status r = pending
               /\ (RefundRequest.status r' = approved
                   \/ RefundRequest.status r' = rejected)))
       /\ (RefundRequest.status r <> pending -> r' = r))
  /\ (forall now rid remarks r,
        get_refund_request s rid = Some r ->
        RefundRequest.status r = pending ->
        let out := process_refund s now rid (Some "reject"%string) remarks in
        fst out = RefundRejected
        /\ users (snd out) = users s
        /\ wallet_transactions (snd out) = wallet_transactions s
        /\ get_refund_request (snd out) rid
           = Some (RefundRequest.resolve rejected remarks now r))
  /\ (forall now rid action remarks,
        is_action action "approve" = false ->
        is_action action "reject" = false ->
        let out := process_refund s now rid action remarks in
        snd out = s
        /\ success (fst out) = false
        /\ (forall r,
              get_refund_request s rid = Some r ->
              RefundRequest.status r = pending ->
              fst out = InvalidAction)).
Proof.
  split; [|split].
  - intros c q rid r Hr.
    destruct (refund_request_step c q s rid r Hr)
      as [H|[Hp (st & remarks & now0 & Hst & H)]].
    + exists r. split; [exact H|]. split; [now left|reflexivity].
    + exists (RefundRequest.resolve st remarks now0 r).
      split; [exact H|]. split.
      * right. split; [exact Hp|]. destruct Hst; subst st; auto.
      * intros Hn. contradiction.
  - intros now0 rid remarks r Hr Hp. cbv zeta. unfold process_refund.
    rewrite Hr, Hp. cbn [Status_eqb negb is_action String.eqb Ascii.eqb
                         Bool.eqb fst snd].
    repeat split.
    rewrite get_refund_request_update by reflexivity.
    rewrite Hr. cbn [option_map].
    apply get_refund_request_id in Hr. rewrite Hr, Z.eqb_refl.
    reflexivity.
  - intros now0 rid action remarks Ha Hj. cbv zeta. unfold process_refund.
    rewrite Ha, Hj.
    destruct (get_refund_request s rid) as [r|]; [|repeat split; discriminate].
    destruct (RefundRequest.status r) eqn:E; cbn [Status_eqb negb fst snd];
      repeat split; intros r' H; inversion H; subst r'; congruence.
Qed.

(** ** The invariants hold in every reachable database *)

Lemma latest_entry_add s u amt ty d after now v :
  latest_entry (add_wallet_transaction u amt ty d after now s) v =
  if u =? v
  then Some (WalletTransaction.mk (wallet_transactions_id_seq s) u amt ty d
                                  after now)
  else latest_entry s v.
Proof.
  unfold latest_entry, history, add_wallet_transaction.
  cbn [wallet_transactions]. rewrite filter_app. cbn [filter].
  cbn [WalletTransaction.user_id].
  destruct (u =? v).
  - now rewrite rev_app_distr.
  - now rewrite app_nil_r.
Qed.

Lemma latest_entry_fresh s v :
  (forall e, In e (wallet_transactions s) ->
     WalletTransaction.user_id e < v) ->
  latest_entry s v = None.
Proof.
  intros H. unfold latest_entry, history.
  replace (filter _ (wallet_transactions s)) with (@nil WalletTransaction.t);
    [reflexivity|].
  symmetry. induction (wallet_transactions s) as [|e l IH]; [reflexivity|].
  cbn [filter]. destruct (WalletTransaction.user_id e =? v) eqn:E.
  - apply Z.eqb_eq in E. specialize (H e (or_introl eq_refl)). lia.
  - apply IH. intros e' He'. apply H. now right.
Qed.

Lemma get_user_update_user s i f j :
  (forall u, User.id (f u) = User.id u) ->
  get_user (update_user i f s) j =
  option_map (fun u => if User.id u =? i then f u else u) (get_user s j).
Proof.
  intros Hf. unfold get_user, update_user; cbn [users].
  apply find_map_stable. intros u.
  destruct (User.id u =? i); [now rewrite Hf|reflexivity].
Qed.

Lemma get_user_unique s u :
  NoDup (map User.id (users s)) -> In u (users s) ->
  get_user s (User.id u) = Some u.
Proof.
  intros Hnd Hin.
  destruct (find_exists (fun v => User.id v =? User.id u) (users s) u Hin)
    as [y Hy]; [apply Z.eqb_refl|].
  unfold get_user. rewrite Hy. f_equal.
  apply find_In in Hy. destruct Hy as [Hy E]. apply Z.eqb_eq in E.
  exact (NoDup_map_inj User.id _ _ _ Hnd Hy Hin E).
Qed.

Lemma in_updated {A} (g : A -> A) l x :
  In x (map g l) -> exists y, In y l /\ x = g y.
Proof.
  intros H. apply in_map_iff in H. destruct H as [y [E Hy]]. eauto.
Qed.

Lemma Inv_empty : Inv empty_db.
Proof.
  constructor; cbn; try (intros ? []); constructor.
Qed.

Lemma Inv_map_meals g s :
  (forall m, Meal.id (g m) = Meal.id m) -> Inv s -> Inv (map_meals g s).
Proof.
  intros Hg [H1 H2 H3 H4 H5 H6 H7 H8 H9].
  constructor; try assumption.
  intros a Ha. destruct (H8 a Ha) as [m [Hm E]].
  exists (g m). split; [now apply in_map|now rewrite Hg].
Qed.

Lemma Inv_add_meal d t p menu now s : Inv s -> Inv (add_meal d t p menu now s).
Proof.
  intros [H1 H2 H3 H4 H5 H6 H7 H8 H9].
  constructor; try assumption.
  intros a Ha. destruct (H8 a Ha) as [m [Hm E]].
  exists m. split; [|exact E]. cbn [meals add_meal].
  apply in_or_app. now left.
Qed.

Lemma Inv_delete_meal_row i s :
  attendance_count s i = 0%nat -> Inv s -> Inv (delete_meal_row i s).
Proof.
  intros Hc [H1 H2 H3 H4 H5 H6 H7 H8 H9].
  constructor; try assumption.
  intros a Ha. destruct (H8 a Ha) as [m [Hm E]].
  exists m. split; [|exact E]. cbn [meals delete_meal_row].
  apply filter_In. split; [exact Hm|].
  destruct (Meal.id m =? i) eqn:Ei; [|reflexivity]. exfalso.
  apply Z.eqb_eq in Ei. unfold attendance_count in Hc.
  apply length_zero_iff_nil in Hc.
  assert (Hf : In a (filter (fun a => Attendance.meal_id a =? i)
                            (attendance s))).
  { apply filter_In. split; [exact Ha|]. apply Z.eqb_eq. congruence. }
  rewrite Hc in Hf. destruct Hf.
Qed.

Lemma Inv_update_user i f s :
  (forall u, User.id (f u) = User.id u) ->
  (forall u, User.role (f u) = User.role u) ->
  (forall u, User.wallet_balance (f u) = User.wallet_balance u) ->
  Inv s -> Inv (update_user i f s).
Proof.
  intros Hid Hrole Hbal [H1 H2 H3 H4 H5 H6 H7 H8 H9].
  set (g := fun u => if User.id u =? i then f u else u).
  assert (Hgid : forall u, User.id (g u) = User.id u).
  { intros u. unfold g. destruct (User.id u =? i); auto. }
  assert (Hgrole : forall u, User.role (g u) = User.role u).
  { intros u. unfold g. destruct (User.id u =? i); auto. }
  assert (Hgbal : forall u, User.wallet_balance (g u) = User.wallet_balance u).
  { intros u. unfold g. destruct (User.id u =? i); auto. }
  constructor; try assumption.
  - intros u Hu. apply in_updated in Hu. destruct Hu as [v [Hv ->]].
    fold (g v). rewrite Hgid. now apply H1.
  - cbn [users update_user]. rewrite map_map.
    erewrite map_ext; [exact H2|]. intros u. apply Hgid.
  - intros u Hu. apply in_updated in Hu. destruct Hu as [v [Hv ->]].
    fold (g v). specialize (H4 v Hv). unfold ledger_backed in *.
    rewrite Hgid, Hgbal. exact H4.
  - intros a Ha. destruct (H7 a Ha) as [u [Hu Hr]].
    exists (g u). rewrite get_user_update_user by exact Hid.
    rewrite Hu. split; [reflexivity|]. now rewrite Hgrole.
Qed.

Lemma NoDup_snoc {A} (l : list A) x : NoDup l -> ~ In x l -> NoDup (l ++ [x]).
Proof.
  induction l as [|a l IH]; intros Hnd Hx; simpl.
  - constructor; [tauto|constructor].
  - inversion Hnd as [|? ? Ha Hl]; subst. constructor.
    + intros Hin. apply in_app_or in Hin. destruct Hin as [Hin|[->|[]]].
      * contradiction.
      * apply Hx. now left.
    + apply IH; [exact Hl|]. intros Hin. apply Hx. now right.
Qed.

Lemma fresh_user_id s :
  (forall u, In u (users s) -> User.id u < users_id_seq s) ->
  ~ In (users_id_seq s) (map User.id (users s)).
Proof.
  intros H Hin. apply in_map_iff in Hin. destruct Hin as [u [E Hu]].
  apply H in Hu. lia.
Qed.

(** A new account, with its opening ledger entry when the initial
    balance is positive. *)
Lemma Inv_new_user n nm r room bal now s :
  Inv s ->
  Inv (if 0 <? bal
       then add_wallet_transaction (users_id_seq s) bal credit
              InitialWalletBalance bal now (add_user n nm r room bal now s)
       else add_user n nm r room bal now s).
Proof.
  intros [H1 H2 H3 H4 H5 H6 H7 H8 H9].
  assert (Hids : forall u,
    In u (users s ++ [User.mk (users_id_seq s) n nm r room bal now true]) ->
    User.id u < users_id_seq s + 1).
  { intros u Hu. apply in_app_or in Hu. destruct Hu as [Hu|[<-|[]]].
    - apply H1 in Hu. lia.
    - cbn. lia. }
  assert (Hnd : NoDup (map User.id
    (users s ++ [User.mk (users_id_seq s) n nm r room bal now true]))).
  { rewrite map_app. apply NoDup_snoc; [exact H2|].
    now apply fresh_user_id. }
  assert (Hatt : forall a, In a (attendance s) ->
    exists u, get_user (add_user n nm r room bal now s)
                       (Attendance.user_id a) = Some u
              /\ User.role u = RoleStudent).
  { intros a Ha. destruct (H7 a Ha) as [u [Hu Hr]]. exists u.
    split; [|exact Hr]. unfold get_user, add_user; cbn [users].
    now apply find_app_some. }
  destruct (0 <? bal) eqn:Hb.
  - constructor; try assumption.
    + intros e He. apply in_app_or in He. destruct He as [He|[<-|[]]].
      * apply H3 in He.
        cbn [users_id_seq add_user add_wallet_transaction]. lia.
      * cbn [WalletTransaction.user_id users_id_seq add_user
             add_wallet_transaction]. lia.
    + intros u Hu. unfold ledger_backed. rewrite latest_entry_add.
      apply in_app_or in Hu. destruct Hu as [Hu|[<-|[]]].
      * replace (users_id_seq s =? User.id u) with false.
        -- now apply H4.
        -- symmetry. apply Z.eqb_neq. apply H1 in Hu. lia.
      * cbn [User.id]. rewrite Z.eqb_refl. reflexivity.
  - apply Z.ltb_ge in Hb. constructor; try assumption.
    + intros e He. apply H3 in He. cbn [users_id_seq add_user]. lia.
    + intros u Hu. apply in_app_or in Hu. destruct Hu as [Hu|[<-|[]]].
      * now apply H4.
      * unfold ledger_backed. cbn [User.id User.wallet_balance].
        change (latest_entry (add_user n nm r room bal now s))
          with (latest_entry s).
        now rewrite (latest_entry_fresh s _ H3).
Qed.

Lemma Inv_apply_ledger student amt ty d now s :
  In student (users s) -> Inv s -> Inv (apply_ledger student amt ty d now s).
Proof.
  intros Hst [H1 H2 H3 H4 H5 H6 H7 H8 H9].
  set (nb := User.wallet_balance student + amt).
  set (g := fun u => if User.id u =? User.id student
                     then User.set_wallet_balance nb u else u).
  assert (Hgid : forall u, User.id (g u) = User.id u).
  { intros u. unfold g. destruct (User.id u =? User.id student); auto. }
  assert (Hgrole : forall u, User.role (g u) = User.role u).
  { intros u. unfold g. destruct (User.id u =? User.id student); auto. }
  constructor; try assumption.
  - intros u Hu. change (In u (map g (users s))) in Hu.
    apply in_updated in Hu. destruct Hu as [v [Hv ->]].
    rewrite Hgid. now apply H1.
  - change (NoDup (map User.id (map g (users s)))).
    rewrite map_map. erewrite map_ext; [exact H2|]. intros u. apply Hgid.
  - intros e He. apply in_app_or in He. destruct He as [He|[<-|[]]].
    + now apply H3.
    + now apply H1.
  - intros u Hu. change (In u (map g (users s))) in Hu.
    apply in_updated in Hu. destruct Hu as [v [Hv ->]].
    unfold ledger_backed, apply_ledger. rewrite latest_entry_add.
    rewrite Hgid. rewrite (Z.eqb_sym (User.id student)).
    fold nb. unfold g. destruct (User.id v =? User.id student).
    + reflexivity.
    + now apply H4.
  - intros a Ha. destruct (H7 a Ha) as [u [Hu Hr]].
    exists (g u). split; [|now rewrite Hgrole].
    change (get_user (apply_ledger student amt ty d now s))
      with (get_user (update_user (User.id student)
                        (User.set_wallet_balance nb) s)).
    rewrite get_user_update_user by reflexivity. now rewrite Hu.
Qed.

Lemma attendance_of_none_key s u m :
  attendance_of s u m = None -> ~ In (u, m) (map att_key (attendance s)).
Proof.
  intros H Hin. apply in_map_iff in Hin. destruct Hin as [a [E Ha]].
  apply (find_none _ _ H) in Ha. unfold att_key in E.
  inversion E; subst. now rewrite !Z.eqb_refl in Ha.
Qed.

Lemma Inv_add_attendance u m paid now s :
  attendance_of s u m = None ->
  (exists st, get_user s u = Some st /\ User.role st = RoleStudent) ->
  (exists m0, In m0 (meals s) /\ Meal.id m0 = m) ->
  Inv s -> Inv (add_attendance u m paid now s).
Proof.
  intros Hnone Hu Hm [H1 H2 H3 H4 H5 H6 H7 H8 H9].
  constructor; try assumption.
  - cbn [attendance add_attendance]. rewrite map_app.
    apply NoDup_snoc; [exact H5|]. now apply attendance_of_none_key.
  - intros a Ha. apply in_app_or in Ha. destruct Ha as [Ha|[<-|[]]].
    + apply H6 in Ha. cbn [attendance_id_seq add_attendance]. lia.
    + cbn. lia.
  - intros a Ha. apply in_app_or in Ha. destruct Ha as [Ha|[<-|[]]].
    + now apply H7.
    + exact Hu.
  - intros a Ha. apply in_app_or in Ha. destruct Ha as [Ha|[<-|[]]].
    + now apply H8.
    + exact Hm.
  - intros r Hr. destruct (H9 r Hr) as [a [Ha E]]. exists a.
    split; [|exact E]. unfold get_attendance, add_attendance.
    cbn [attendance]. now apply find_app_some.
Qed.

Lemma Inv_add_refund_request att reason now s :
  get_attendance s (Attendance.id att) = Some att ->
  Inv s ->
  Inv (add_refund_request (Attendance.user_id att) (Attendance.id att)
         (Attendance.amount_paid att) reason now s).
Proof.
  intros Hatt [H1 H2 H3 H4 H5 H6 H7 H8 H9].
  constructor; try assumption.
  intros r Hr. apply in_app_or in Hr. destruct Hr as [Hr|[<-|[]]].
  - now apply H9.
  - exists att. cbn. auto.
Qed.

Lemma Inv_update_refund_request i f s :
  (forall r, RefundRequest.attendance_id (f r) = RefundRequest.attendance_id r) ->
  (forall r, RefundRequest.amount (f r) = RefundRequest.amount r) ->
  (forall r, RefundRequest.user_id (f r) = RefundRequest.user_id r) ->
  Inv s -> Inv (update_refund_request i f s).
Proof.
  intros Ha Hm Hu [H1 H2 H3 H4 H5 H6 H7 H8 H9].
  constructor; try assumption.
  intros r Hr. apply in_updated in Hr. destruct Hr as [r0 [Hr0 ->]].
  destruct (H9 r0 Hr0) as [a E]. exists a.
  destruct (RefundRequest.id r0 =? i); [rewrite Ha, Hm, Hu|]; exact E.
Qed.

Lemma Inv_deactivate_past_meals today s :
  Inv s -> Inv (deactivate_past_meals today s).
Proof.
  apply (Inv_map_meals
           (fun m => if (Meal.date m <? today) && Meal.is_active m
                     then Meal.set_is_active false m else m)).
  intros m. destruct ((Meal.date m <? today) && Meal.is_active m);
    reflexivity.
Qed.

Lemma Inv_update_meal i f s :
  (forall m, Meal.id (f m) = Meal.id m) -> Inv s -> Inv (update_meal i f s).
Proof.
  intros Hf.
  apply (Inv_map_meals (fun m => if Meal.id m =? i then f m else m)).
  intros m. destruct (Meal.id m =? i); [apply Hf|reflexivity].
Qed.

Lemma Inv_process_scan s now roll meal_id :
  Inv s -> Inv (snd (process_scan s now roll meal_id)).
Proof.
  intros H. unfold process_scan.
  destruct (student_by_username s roll) as [st|] eqn:Hs; [|exact H].
  destruct (User.is_active st); [|exact H]. cbn [negb].
  destruct (get_meal s meal_id) as [m|] eqn:Hm; [|exact H].
  destruct (attendance_of s (User.id st) (Meal.id m)) eqn:Ha; [exact H|].
  destruct (User.wallet_balance st <? Meal.price m); [exact H|].
  cbn [snd]. apply find_In in Hs. destruct Hs as [Hin Hp].
  apply andb_prop in Hp. destruct Hp as [_ Hrole].
  apply find_In in Hm. destruct Hm as [Hmin _].
  apply Inv_add_attendance.
  - exact Ha.
  - exists (User.set_wallet_balance
              (User.wallet_balance st + - Meal.price m) st).
    split.
    + change (get_user (apply_ledger st ?a ?t ?d now s))
        with (get_user (update_user (User.id st)
                (User.set_wallet_balance (User.wallet_balance st + a)) s)).
      rewrite get_user_update_user by reflexivity.
      rewrite (get_user_unique s st (inv_user_nodup s H) Hin).
      cbn [option_map]. now rewrite Z.eqb_refl.
    + cbn [User.role User.set_wallet_balance].
      destruct (User.role st); [discriminate|reflexivity].
  - exists m. split; [exact Hmin|reflexivity].
  - now apply Inv_apply_ledger.
Qed.

Lemma Inv_request_refund s now uid aid reason :
  Inv s -> Inv (snd (request_refund s now uid aid reason)).
Proof.
  intros H. unfold request_refund.
  destruct (get_user s uid) as [cu|]; [|exact H].
  destruct (Role_eqb (User.role cu) RoleStudent); [|exact H]. cbn [negb].
  destruct (get_attendance s aid) as [att|] eqn:Ha; [|exact H].
  destruct (Attendance.user_id att =? User.id cu) eqn:E; [|exact H].
  cbn [negb].
  destruct (refund_request_for s aid); [exact H|].
  destruct (hours_24 <? now - Attendance.scanned_at att); [exact H|].
  cbn [snd]. apply Z.eqb_eq in E. rewrite <- E.
  assert (Hid : Attendance.id att = aid).
  { apply find_In in Ha. now apply Z.eqb_eq. }
  subst aid. now apply Inv_add_refund_request.
Qed.

Lemma Inv_process_refund s now rid action remarks :
  Inv s -> Inv (snd (process_refund s now rid action remarks)).
Proof.
  intros H. unfold process_refund.
  destruct (get_refund_request s rid) as [r|]; [|exact H].
  destruct (Status_eqb (RefundRequest.status r) pending); [|exact H].
  cbn [negb]. destruct (is_action action "approve").
  - destruct (get_user s (RefundRequest.user_id r)) as [st|] eqn:Hu;
      [|exact H].
    destruct (get_attendance s (RefundRequest.attendance_id r)); [|exact H].
    destruct (get_meal s (Attendance.meal_id t)); [|exact H].
    cbn [snd]. apply Inv_update_refund_request; try reflexivity.
    apply Inv_apply_ledger; [|exact H].
    apply find_In in Hu. tauto.
  - destruct (is_action action "reject"); [|exact H].
    cbn [snd]. now apply Inv_update_refund_request.
Qed.

Lemma Inv_dispatch c q s : Inv s -> Inv (snd (dispatch c q s)).
Proof.
  intros H. destruct q; unfold dispatch.
  - unfold init_database.
    destruct (user_by_username s "admin"); [exact H|].
    exact (Inv_new_user _ _ _ _ 0 _ _ H).
  - unfold register_student.
    destruct (roll_pattern_match roll_number); [|exact H]. cbn [negb].
    destruct (user_by_username s (upper roll_number)); [exact H|].
    cbn [snd]. now apply Inv_new_user.
  - unfold edit_student.
    destruct (get_user s student_id); [|exact H].
    destruct (Role_eqb _ _); [|exact H].
    cbn [negb snd]. now apply Inv_update_user.
  - unfold delete_student.
    destruct (get_user s student_id); [|exact H].
    destruct (Role_eqb _ _); [|exact H].
    cbn [negb snd]. now apply Inv_update_user.
  - unfold toggle_student_status.
    destruct (get_user s student_id); [|exact H].
    destruct (Role_eqb _ _); [|exact H].
    cbn [negb snd]. now apply Inv_update_user.
  - unfold add_balance.
    destruct (get_user s student_id) eqn:Hu; [|exact H].
    cbn [snd]. apply Inv_apply_ledger; [|exact H].
    apply find_In in Hu. tauto.
  - unfold api_add_balance.
    destruct (amount <=? 0); [exact H|].
    destruct (get_user s student_id) eqn:Hu; [|exact H].
    cbn [snd]. apply Inv_apply_ledger; [|exact H].
    apply find_In in Hu. tauto.
  - unfold manage_meals.
    destruct (meal_by_slot s meal_date meal_type); [exact H|].
    cbn [snd]. now apply Inv_add_meal.
  - unfold edit_meal.
    destruct (get_meal s meal_id); [|exact H].
    destruct (other_meal_by_slot s meal_date meal_type meal_id); [exact H|].
    cbn [snd]. now apply Inv_update_meal.
  - unfold delete_meal.
    destruct (get_meal s meal_id); [|exact H].
    destruct (attendance_count s (Meal.id t)) eqn:E; [|exact H].
    cbn [Nat.ltb Nat.leb snd]. now apply Inv_delete_meal_row.
  - unfold toggle_meal.
    destruct (get_meal s meal_id); [|exact H].
    cbn [snd]. now apply Inv_update_meal.
  - now apply Inv_process_scan.
  - now apply Inv_request_refund.
  - now apply Inv_process_refund.
Qed.

Lemma Inv_handle c q s : Inv s -> Inv (snd (handle c q s)).
Proof.
  intros H. unfold handle.
  destruct q; apply Inv_dispatch; try exact H;
    now apply Inv_deactivate_past_meals.
Qed.

Lemma reachable_Inv s : reachable s -> Inv s.
Proof.
  induction 1 as [|c q s _ IH]; [exact Inv_empty|now apply Inv_handle].
Qed.

Lemma reachable_run l s : reachable s -> reachable (run l s).
Proof.
  revert s. induction l as [|[c q] l IH]; intros s H; [exact H|].
  cbn [run]. apply IH. now constructor.
Qed.

(** ** Balance and ledger *)



(** ** One attendance per account and meal *)





(** ** Requesting a refund *)

Lemma get_user_id s i u : get_user s i = Some u -> User.id u = i.
Proof. intros H. apply find_In in H. now apply Z.eqb_eq. Qed.


(** In a reachable database the owner of an attendance is a student. *)
Lemma attendance_owner_is_student s uid cu aid att :
  Inv s -> get_user s uid = Some cu -> get_attendance s aid = Some att ->
  Attendance.user_id att = User.id cu -> User.role cu = RoleStudent.
Proof.
  intros H Hu Ha E. apply find_In in Ha. destruct Ha as [Ha _].
  destruct (inv_att_user s H att Ha) as [u [Hu' Hr]].
  rewrite E, (get_user_id _ _ _ Hu), Hu in Hu'. congruence.
Qed.

(** C5. In a reachable database, for a logged-in account and an existing
    attendance, the refund request is accepted exactly when the
    attendance is the account's own, no refund request of any status
    names the attendance, and at most 24 hours have passed since the scan
    (24 hours exactly still being accepted); the three failures are
    answered, in this order, as unauthorized, already requested and window
    expired, each leaving the database as it was. An accepted request is
    stored pending with the attendance's [amount_paid] as its amount. *)
Theorem request_refund_eligibility s now uid aid reason cu att :
  reachable s ->
  get_user s uid = Some cu ->
  get_attendance s aid = Some att ->
  let out := request_refund s now uid aid reason in
  let own := Attendance.user_id att = User.id cu in
  let unclaimed := refund_request_for s aid = None in
  let in_window := now - Attendance.scanned_at att <= hours_24 in
  (fst out = RefundSubmitted <-> own /\ unclaimed /\ in_window)
  /\ (~ own -> out = (Unauthorized, s))
  /\ (own -> ~ unclaimed -> out = (RefundAlreadyRequested, s))
  /\ (own -> unclaimed -> ~ in_window -> out = (RefundWindowExpired, s))
  /\ (own -> unclaimed -> in_window ->
      refund_requests (snd out) =
      refund_requests s ++
      [RefundRequest.mk (refund_requests_id_seq s) (User.id cu) aid
         (Attendance.amount_paid att) reason pending None now None])
  /\ (own -> unclaimed -> now - Attendance.scanned_at att = hours_24 ->
      fst out = RefundSubmitted).
Proof.
  intros Hr Hu Ha out own unclaimed in_window.
  apply reachable_Inv in Hr.
  pose proof (attendance_owner_is_student s uid cu aid att Hr Hu Ha) as Hrole.
  subst out own unclaimed in_window. unfold request_refund.
  rewrite Hu, Ha.
  destruct (Attendance.user_id att =? User.id cu) eqn:E.
  - apply Z.eqb_eq in E. rewrite (Hrole E). cbn [Role_eqb negb].
    destruct (refund_request_for s aid) as [r|] eqn:Hreq.
    + cbn [fst snd]. repeat split; try congruence; try tauto.
      intros [_ [H _]]. discriminate H.
    + destruct (hours_24 <? now - Attendance.scanned_at att) eqn:W;
        cbn [fst snd].
      * apply Z.ltb_lt in W. repeat split; try congruence; try tauto;
          try lia.
      * apply Z.ltb_ge in W. repeat split; try congruence; try tauto.
  - apply Z.eqb_neq in E.
    assert (Hun : (if negb (Role_eqb (User.role cu) RoleStudent)
                   then (Unauthorized, s)
                   else (Unauthorized, s)) = (Unauthorized, s))
      by (destruct (negb _); reflexivity).
    cbn [negb]. rewrite Hun. cbn [fst snd].
    repeat split; try congruence; try tauto.
Qed.

(** ** Resolving a refund *)







(** ** Registration *)



(** ** The theorems on the sample runs *)

Lemma reachable_canteen_db : reachable canteen_db.
Proof. apply reachable_run. constructor. Qed.

Lemma reachable_scanned_db : reachable scanned_db.
Proof. apply reachable_run. exact reachable_canteen_db. Qed.

Lemma reachable_claimed_db : reachable claimed_db.
Proof. apply reachable_run. exact reachable_scanned_db. Qed.

(** Roll numbers the pattern takes and refuses. *)
Example roll_pattern_examples :
  map roll_pattern_match
      ["2024-cs-562"; "2024-CSxyz-0001"; "2024-c-562"; "2024-cs-56299";
       "20245-cs-562"; "2024-abcdef-1"; "2024-cs-"; "2024 cs 562"]%string
  = [true; true; false; false; false; false; false; false].
Proof. reflexivity. Qed.

(** The registration of the sample run stores the roll number in upper
    case, with the opening credit of 50.00. *)
Example canteen_registration :
  student_by_username canteen_db "2024-CS-562" = Some asha
  /\ map WalletTransaction.balance_after (history canteen_db 2) = [5000].
Proof. split; reflexivity. Qed.

(** A refund asked 23 h 59 min after the scan is accepted, one asked
    24 h 01 min after it is refused. *)
Example refund_window_examples :
  fst (request_refund scanned_db (now (clk 4) + hours_24 - 60000000) 2 1
                      "left before lunch") = RefundSubmitted
  /\ fst (request_refund scanned_db (now (clk 4) + hours_24 + 60000000) 2 1
                         "left before lunch") = RefundWindowExpired.
Proof. split; reflexivity. Qed.

(** After the approval of her refund Asha is back at 50.00, and the
    request cannot be resolved again. *)
Example approved_refund_example :
  let out := process_refund claimed_db (now (clk 6)) 1
               (Some "approve"%string) "ok" in
  option_map User.wallet_balance (get_user (snd out) 2) = Some 5000
  /\ fst (process_refund (snd out) (now (clk 7)) 1 (Some "reject"%string)
                         "no") = RequestAlreadyProcessed.
Proof. split; reflexivity. Qed.



(** Ravi, with 49.99, is refused the lunch at 50.00. *)
Lemma process_scan_rejects_in_order_witness :
  process_scan canteen_db (now (clk 4)) "2024-EE-17" 1
  = (InsufficientBalance 4999, canteen_db).
Proof.
  destruct (process_scan_rejects_in_order canteen_db (now (clk 4))
              "2024-EE-17" 1) as (_ & H & _).
  destruct (H ravi eq_refl) as (_ & _ & H3).
  destruct (H3 lunch eq_refl eq_refl) as (_ & H4).
  exact (H4 eq_refl eq_refl).
Defined.


(** Asha asks for her refund exactly 24 hours after the scan. *)
Lemma request_refund_eligibility_witness :
  fst (request_refund scanned_db (now (clk 4) + hours_24) 2 1
                      "left before lunch")
  = RefundSubmitted.
Proof.
  destruct (request_refund_eligibility scanned_db (now (clk 4) + hours_24)
              2 1 "left before lunch" (User.set_wallet_balance 0 asha)
              lunch_attendance reachable_scanned_db eq_refl eq_refl)
    as (_ & _ & _ & _ & _ & H).
  apply H; reflexivity.
Defined.


(** Asha's refund is rejected: users and ledger stay as they were. *)
Lemma refund_request_transitions_witness :
  let out := process_refund claimed_db (now (clk 6)) 1
               (Some "reject"%string) "no" in
  fst out = RefundRejected
  /\ users (snd out) = users claimed_db
  /\ wallet_transactions (snd out) = wallet_transactions claimed_db
  /\ get_refund_request (snd out) 1
     = Some (RefundRequest.resolve rejected "no" (now (clk 6)) lunch_refund).
Proof.
  destruct (refund_request_transitions claimed_db) as (_ & H & _).
  exact (H (now (clk 6)) 1 "no"%string lunch_refund eq_refl eq_refl).
Defined.




(** ** What a request writes *)

Lemma Effect_same s s' :
  users s' = users s ->
  wallet_transactions s' = wallet_transactions s ->
  attendance s' = attendance s ->
  Effect s s'.
Proof.
  intros Hu Hw Ha. apply (effect_quiet s s' (fun u => u)); auto.
  now rewrite map_id.
Qed.

Lemma Effect_update_user i f s :
  (forall u, User.id (f u) = User.id u) ->
  (forall u, User.username (f u) = User.username u) ->
  (forall u, User.role (f u) = User.role u) ->
  (forall u, User.wallet_balance (f u) = User.wallet_balance u) ->
  Effect s (update_user i f s).
Proof.
  intros H1 H2 H3 H4.
  apply (effect_quiet _ _ (fun u => if User.id u =? i then f u else u));
    try reflexivity.
  intros u. destruct (User.id u =? i); auto.
Qed.

Lemma Effect_new_user n nm r room bal now s :
  Effect s (if 0 <? bal
            then add_wallet_transaction (users_id_seq s) bal credit
                   InitialWalletBalance bal now
                   (add_user n nm r room bal now s)
            else add_user n nm r room bal now s).
Proof.
  apply (effect_new_user _ _
           (User.mk (users_id_seq s) n nm r room bal now true) now);
    cbn [User.id User.wallet_balance]; destruct (0 <? bal); reflexivity.
Qed.

Lemma Effect_apply_ledger_credit student amt d now s s' :
  In student (users s) ->
  users s' = users (apply_ledger student amt credit d now s) ->
  wallet_transactions s' =
    wallet_transactions (apply_ledger student amt credit d now s) ->
  attendance s' = attendance s ->
  Effect s s'.
Proof.
  intros Hin Hu Hw Ha.
  apply (effect_ledger s s' student amt credit d now []); auto.
  now rewrite app_nil_r.
Qed.

Lemma Effect_sweep today s s' :
  Effect (deactivate_past_meals today s) s' -> Effect s s'.
Proof.
  intros [g Hg Hu Hw Ha|new now0 Hu Hid Hw Ha
         |student amt ty d now0 scans Hin Hu Hw Ha Hs].
  - exact (effect_quiet s s' g Hg Hu Hw Ha).
  - exact (effect_new_user s s' new now0 Hu Hid Hw Ha).
  - exact (effect_ledger s s' student amt ty d now0 scans Hin Hu Hw Ha Hs).
Qed.

Lemma dispatch_effect c q s : Effect s (snd (dispatch c q s)).
Proof.
  destruct q; unfold dispatch.
  - unfold init_database.
    destruct (user_by_username s "admin"); [now apply Effect_same|].
    exact (Effect_new_user _ _ _ _ 0 _ _).
  - unfold register_student.
    destruct (roll_pattern_match roll_number); [|now apply Effect_same].
    cbn [negb].
    destruct (user_by_username s (upper roll_number));
      [now apply Effect_same|].
    cbn [snd]. apply Effect_new_user.
  - unfold edit_student.
    destruct (get_user s student_id); [|now apply Effect_same].
    destruct (Role_eqb _ _); [|now apply Effect_same].
    cbn [negb snd]. now apply Effect_update_user.
  - unfold delete_student.
    destruct (get_user s student_id); [|now apply Effect_same].
    destruct (Role_eqb _ _); [|now apply Effect_same].
    cbn [negb snd]. now apply Effect_update_user.
  - unfold toggle_student_status.
    destruct (get_user s student_id); [|now apply Effect_same].
    destruct (Role_eqb _ _); [|now apply Effect_same].
    cbn [negb snd]. now apply Effect_update_user.
  - unfold add_balance.
    destruct (get_user s student_id) as [st|] eqn:Hu;
      [|now apply Effect_same].
    cbn [snd]. apply find_In in Hu.
    now apply (Effect_apply_ledger_credit st amount BalanceAddedByAdmin
                 (now c)).
  - unfold api_add_balance.
    destruct (amount <=? 0); [now apply Effect_same|].
    destruct (get_user s student_id) as [st|] eqn:Hu;
      [|now apply Effect_same].
    cbn [snd]. apply find_In in Hu.
    now apply (Effect_apply_ledger_credit st amount BalanceAddedByAdmin
                 (now c)).
  - unfold manage_meals.
    destruct (meal_by_slot s meal_date meal_type); now apply Effect_same.
  - unfold edit_meal.
    destruct (get_meal s meal_id); [|now apply Effect_same].
    destruct (other_meal_by_slot s meal_date meal_type meal_id);
      now apply Effect_same.
  - unfold delete_meal.
    destruct (get_meal s meal_id); [|now apply Effect_same].
    destruct (Nat.ltb _ _); now apply Effect_same.
  - unfold toggle_meal.
    destruct (get_meal s meal_id); now apply Effect_same.
  - unfold process_scan.
    destruct (student_by_username s roll_number) as [st|] eqn:Hs;
      [|now apply Effect_same].
    destruct (User.is_active st); [|now apply Effect_same]. cbn [negb].
    destruct (get_meal s meal_id) as [m|]; [|now apply Effect_same].
    destruct (attendance_of s (User.id st) (Meal.id m));
      [now apply Effect_same|].
    destruct (User.wallet_balance st <? Meal.price m);
      [now apply Effect_same|].
    cbn [snd]. apply find_In in Hs.
    apply (effect_ledger _ _ st (- Meal.price m) debit
             (MealOn (capitalize (Meal.meal_type m)) (Meal.date m)) (now c)
             [Attendance.mk (attendance_id_seq s) (User.id st) (Meal.id m)
                (Meal.price m) (now c)]);
      try reflexivity; [tauto|].
    exists (Meal.id m). now rewrite Z.opp_involutive.
  - unfold request_refund.
    repeat break_match; now apply Effect_same.
  - unfold process_refund.
    destruct (get_refund_request s request_id) as [r|];
      [|now apply Effect_same].
    destruct (Status_eqb (RefundRequest.status r) pending);
      [|now apply Effect_same].
    cbn [negb]. destruct (is_action action "approve").
    + destruct (get_user s (RefundRequest.user_id r)) as [st|] eqn:Hu;
        [|now apply Effect_same].
      destruct (get_attendance s (RefundRequest.attendance_id r)) as [a|];
        [|now apply Effect_same].
      destruct (get_meal s (Attendance.meal_id a)) as [m|];
        [|now apply Effect_same].
      cbn [snd]. apply find_In in Hu.
      now apply (Effect_apply_ledger_credit st (RefundRequest.amount r)
                   (RefundFor (Meal.meal_type m) (Meal.date m)) (now c)).
    + destruct (is_action action "reject"); now apply Effect_same.
Qed.

Lemma handle_effect c q s : Effect s (snd (handle c q s)).
Proof.
  unfold handle. destruct q;
    try (apply (Effect_sweep (today c)); apply dispatch_effect).
  apply dispatch_effect.
Qed.

(** X1. Every request leaves the ledger entries and the attendance rows
    that exist in place and appends at most one of each. An attendance is
    appended only together with a debit entry on the same account for the
    negated amount paid, and a debit entry only together with an
    attendance. *)
Theorem ledger_and_attendance_append_only c q s :
  exists es scans,
    wallet_transactions (snd (handle c q s)) = wallet_transactions s ++ es
    /\ attendance (snd (handle c q s)) = attendance s ++ scans
    /\ (length es <= 1)%nat /\ (length scans <= 1)%nat
    /\ (forall a, In a scans ->
          exists e, es = [e] /\ is_debit e = true
                    /\ WalletTransaction.user_id e = Attendance.user_id a
                    /\ WalletTransaction.amount e = - Attendance.amount_paid a)
    /\ (forall e, In e es -> is_debit e = true -> scans <> []).
Proof.
  assert (Hnone : forall (es : list WalletTransaction.t),
    (length es <= 1)%nat ->
    (forall e, In e es -> is_debit e = false) ->
    wallet_transactions (snd (handle c q s)) = wallet_transactions s ++ es ->
    attendance (snd (handle c q s)) = attendance s ->
    exists es scans,
      wallet_transactions (snd (handle c q s)) = wallet_transactions s ++ es
      /\ attendance (snd (handle c q s)) = attendance s ++ scans
      /\ (length es <= 1)%nat /\ (length scans <= 1)%nat
      /\ (forall a, In a scans ->
            exists e, es = [e] /\ is_debit e = true
                      /\ WalletTransaction.user_id e = Attendance.user_id a
                      /\ WalletTransaction.amount e
                         = - Attendance.amount_paid a)
      /\ (forall e, In e es -> is_debit e = true -> scans <> [])).
  { intros es Hlen Hcredit Hw Ha. exists es, [].
    split; [exact Hw|]. split; [now rewrite app_nil_r|].
    split; [exact Hlen|]. split; [cbn; lia|]. split.
    - intros a [].
    - intros e He Hd. rewrite (Hcredit e He) in Hd. discriminate. }
  destruct (handle_effect c q s)
    as [g Hg Hu Hw Ha|new now0 Hu Hid Hw Ha
       |student amt ty d now0 scans Hin Hu Hw Ha Hs].
  - apply (Hnone []); [cbn; lia|intros e []|now rewrite app_nil_r|exact Ha].
  - destruct (0 <? User.wallet_balance new).
    + eapply Hnone; [| |exact Hw|exact Ha]; [cbn; lia|].
      intros e [<-|[]]. reflexivity.
    + apply (Hnone []);
        [cbn; lia|intros e []|now rewrite app_nil_r|exact Ha].
  - destruct ty.
    + subst scans. rewrite app_nil_r in Ha.
      eapply Hnone; [| |exact Hw|exact Ha]; [cbn; lia|].
      intros e [<-|[]]. reflexivity.
    + destruct Hs as [mid ->].
      eexists. eexists. split; [exact Hw|]. split; [exact Ha|].
      split; [cbn; lia|]. split; [cbn; lia|]. split.
      * intros a [<-|[]]. eexists. split; [reflexivity|].
        cbn. repeat split. now rewrite Z.opp_involutive.
      * intros e _ _. discriminate.
Qed.



(** ** Unique keys *)

Lemma NoDup_map_filter {A B} (f : A -> B) (p : A -> bool) l :
  NoDup (map f l) -> NoDup (map f (filter p l)).
Proof.
  induction l as [|a l IH]; intros H; [exact H|].
  inversion H as [|? ? Hn Hl]; subst. cbn [filter].
  destruct (p a); [|now apply IH].
  cbn [map]. constructor; [|now apply IH].
  intros Hin. apply Hn. apply in_map_iff in Hin.
  destruct Hin as [x [E Hx]]. apply filter_In in Hx.
  rewrite <- E. apply in_map. tauto.
Qed.

Lemma NoDup_map_ext {A B} (f : A -> B) (g : A -> A) l :
  (forall x, f (g x) = f x) -> NoDup (map f l) -> NoDup (map f (map g l)).
Proof.
  intros Hg H. rewrite map_map. erewrite map_ext; [exact H|]. exact Hg.
Qed.

Lemma Keys_empty : Keys empty_db.
Proof. constructor; cbn; try (intros ? []); constructor. Qed.

Lemma Keys_map_meals g s :
  (forall m, Meal.id (g m) = Meal.id m) ->
  (forall m, meal_slot (g m) = meal_slot m) ->
  Keys s -> Keys (map_meals g s).
Proof.
  intros Hid Hslot [K1 K2 K3 K4 K5 K6 K7].
  constructor; try assumption.
  - intros m Hm. apply in_updated in Hm. destruct Hm as [m0 [Hm0 ->]].
    rewrite Hid. now apply K2.
  - now apply NoDup_map_ext.
  - now apply NoDup_map_ext.
Qed.

Lemma meal_by_slot_none s d t :
  meal_by_slot s d t = None -> ~ In (d, t) (map meal_slot (meals s)).
Proof.
  intros H Hin. apply in_map_iff in Hin. destruct Hin as [m [E Hm]].
  apply (find_none _ _ H) in Hm. unfold meal_slot in E.
  inversion E; subst. now rewrite Z.eqb_refl, String.eqb_refl in Hm.
Qed.

Lemma Keys_add_meal d t p menu now s :
  meal_by_slot s d t = None -> Keys s -> Keys (add_meal d t p menu now s).
Proof.
  intros Hfree [K1 K2 K3 K4 K5 K6 K7].
  constructor; try assumption.
  - intros m Hm. apply in_app_or in Hm. destruct Hm as [Hm|[<-|[]]].
    + apply K2 in Hm. cbn [meals_id_seq add_meal]. lia.
    + cbn [meals_id_seq add_meal Meal.id]. lia.
  - cbn [meals add_meal]. rewrite map_app. apply NoDup_snoc; [exact K3|].
    intros Hin. apply in_map_iff in Hin. destruct Hin as [m [E Hm]].
    apply K2 in Hm. cbn in E. lia.
  - cbn [meals add_meal]. rewrite map_app. apply NoDup_snoc; [exact K4|].
    now apply meal_by_slot_none.
Qed.

(** Moving the meal with id [i] onto a slot that no other meal holds. *)
Lemma NoDup_slots_update i (f : Meal.t -> Meal.t) d t l :
  (forall m, meal_slot (f m) = (d, t)) ->
  (forall m, In m l -> Meal.id m <> i -> meal_slot m <> (d, t)) ->
  NoDup (map Meal.id l) -> NoDup (map meal_slot l) ->
  NoDup (map meal_slot
           (map (fun m => if Meal.id m =? i then f m else m) l)).
Proof.
  intros Hf. induction l as [|a l IH]; intros Hother Hid Hslot;
    [constructor|].
  inversion Hid as [|? ? Hna Hidl]; subst.
  inversion Hslot as [|? ? Hns Hslotl]; subst.
  cbn [map]. constructor.
  - intros Hin. apply in_map_iff in Hin. destruct Hin as [x [E Hx]].
    apply in_map_iff in Hx. destruct Hx as [m [<- Hm]].
    destruct (Meal.id a =? i) eqn:Ea, (Meal.id m =? i) eqn:Em.
    + apply Z.eqb_eq in Ea, Em. apply Hna. rewrite Ea, <- Em.
      now apply in_map.
    + apply Z.eqb_neq in Em. rewrite Hf in E.
      exact (Hother m (or_intror Hm) Em E).
    + apply Z.eqb_neq in Ea. rewrite Hf in E.
      exact (Hother a (or_introl eq_refl) Ea (eq_sym E)).
    + apply Hns. rewrite <- E. now apply in_map.
  - apply IH; try assumption. intros m Hm. apply Hother. now right.
Qed.

Lemma other_meal_by_slot_none s d t i m :
  other_meal_by_slot s d t i = None ->
  In m (meals s) -> Meal.id m <> i -> meal_slot m <> (d, t).
Proof.
  intros H Hm Hi E. apply (find_none _ _ H) in Hm.
  unfold meal_slot in E. inversion E; subst.
  rewrite Z.eqb_refl, String.eqb_refl in Hm. apply Z.eqb_neq in Hi.
  rewrite Hi in Hm. discriminate.
Qed.

Lemma Keys_edit_meal i d t p menu a s :
  other_meal_by_slot s d t i = None ->
  Keys s ->
  Keys (update_meal i
          (fun m => Meal.mk (Meal.id m) d t p menu a (Meal.created_at m)) s).
Proof.
  intros Hfree [K1 K2 K3 K4 K5 K6 K7].
  constructor; try assumption.
  - intros m Hm. apply in_updated in Hm. destruct Hm as [m0 [Hm0 ->]].
    apply K2 in Hm0. now destruct (Meal.id m0 =? i).
  - cbn [meals update_meal]. apply NoDup_map_ext; [|exact K3].
    intros m. now destruct (Meal.id m =? i).
  - cbn [meals update_meal].
    apply (NoDup_slots_update i _ d t); try assumption; [reflexivity|].
    intros m. now apply other_meal_by_slot_none.
Qed.

Lemma Keys_delete_meal_row i s : Keys s -> Keys (delete_meal_row i s).
Proof.
  intros [K1 K2 K3 K4 K5 K6 K7].
  constructor; try assumption.
  - intros m Hm. apply filter_In in Hm. now apply K2.
  - now apply NoDup_map_filter.
  - now apply NoDup_map_filter.
Qed.

Lemma Keys_add_user n nm r room bal now s :
  user_by_username s n = None -> Keys s ->
  Keys (add_user n nm r room bal now s).
Proof.
  intros Hfree [K1 K2 K3 K4 K5 K6 K7].
  constructor; try assumption.
  cbn [users add_user]. rewrite map_app. apply NoDup_snoc; [exact K1|].
  intros Hin. apply in_map_iff in Hin. destruct Hin as [u [E Hu]].
  apply (find_none _ _ Hfree) in Hu. cbn in E. subst n.
  now rewrite String.eqb_refl in Hu.
Qed.

Lemma Keys_update_user i f s :
  (forall u, User.username (f u) = User.username u) ->
  Keys s -> Keys (update_user i f s).
Proof.
  intros Hf [K1 K2 K3 K4 K5 K6 K7].
  constructor; try assumption.
  cbn [users update_user]. apply NoDup_map_ext; [|exact K1].
  intros u. now destruct (User.id u =? i).
Qed.

Lemma Keys_apply_ledger student amt ty d now s :
  Keys s -> Keys (apply_ledger student amt ty d now s).
Proof.
  intros H.
  destruct (Keys_update_user (User.id student)
              (User.set_wallet_balance (User.wallet_balance student + amt))
              s (fun u => eq_refl) H) as [K1 K2 K3 K4 K5 K6 K7].
  constructor; assumption.
Qed.

Lemma Keys_add_attendance u m paid now s :
  Inv s -> Keys s -> Keys (add_attendance u m paid now s).
Proof.
  intros HI [K1 K2 K3 K4 K5 K6 K7].
  constructor; try assumption.
  cbn [attendance add_attendance]. rewrite map_app.
  apply NoDup_snoc; [exact K5|].
  intros Hin. apply in_map_iff in Hin. destruct Hin as [a [E Ha]].
  apply (inv_att_ids s HI) in Ha. cbn in E. lia.
Qed.

Lemma Keys_add_refund_request u a amt reason now s :
  refund_request_for s a = None -> Keys s ->
  Keys (add_refund_request u a amt reason now s).
Proof.
  intros Hfree [K1 K2 K3 K4 K5 K6 K7].
  constructor; try assumption.
  - intros r Hr. apply in_app_or in Hr. destruct Hr as [Hr|[<-|[]]].
    + apply K6 in Hr. cbn [refund_requests_id_seq add_refund_request]. lia.
    + cbn [refund_requests_id_seq add_refund_request RefundRequest.id]. lia.
  - cbn [refund_requests add_refund_request]. rewrite map_app.
    apply NoDup_snoc; [exact K7|].
    intros Hin. apply in_map_iff in Hin. destruct Hin as [r [E Hr]].
    apply (find_none _ _ Hfree) in Hr. cbn in E. subst a.
    now rewrite Z.eqb_refl in Hr.
Qed.

Lemma Keys_update_refund_request i f s :
  (forall r, RefundRequest.id (f r) = RefundRequest.id r) ->
  (forall r, RefundRequest.attendance_id (f r)
             = RefundRequest.attendance_id r) ->
  Keys s -> Keys (update_refund_request i f s).
Proof.
  intros Hid Hatt [K1 K2 K3 K4 K5 K6 K7].
  constructor; try assumption.
  - intros r Hr. apply in_updated in Hr. destruct Hr as [r0 [Hr0 ->]].
    apply K6 in Hr0. destruct (RefundRequest.id r0 =? i);
      [now rewrite Hid|assumption].
  - cbn [refund_requests update_refund_request].
    apply NoDup_map_ext; [|exact K7].
    intros r. destruct (RefundRequest.id r =? i); [apply Hatt|reflexivity].
Qed.

Lemma Keys_deactivate_past_meals today s :
  Keys s -> Keys (deactivate_past_meals today s).
Proof.
  apply (Keys_map_meals
           (fun m => if (Meal.date m <? today) && Meal.is_active m
                     then Meal.set_is_active false m else m));
    intros m; destruct ((Meal.date m <? today) && Meal.is_active m);
    reflexivity.
Qed.

Lemma Keys_toggle_meal i flag s :
  Keys s -> Keys (update_meal i (Meal.set_is_active flag) s).
Proof.
  apply (Keys_map_meals
           (fun m => if Meal.id m =? i
                     then Meal.set_is_active flag m else m));
    intros m; destruct (Meal.id m =? i); reflexivity.
Qed.

Lemma Keys_dispatch c q s : Inv s -> Keys s -> Keys (snd (dispatch c q s)).
Proof.
  intros HI H. destruct q; unfold dispatch.
  - unfold init_database.
    destruct (user_by_username s "admin") eqn:E; [exact H|].
    cbn [snd]. now apply Keys_add_user.
  - unfold register_student.
    destruct (roll_pattern_match roll_number); [|exact H]. cbn [negb].
    destruct (user_by_username s (upper roll_number)) eqn:E; [exact H|].
    cbn [snd].
    assert (K : Keys (add_user (upper roll_number) name RoleStudent
                        room_number initial_balance (now c) s))
      by now apply Keys_add_user.
    destruct (0 <? initial_balance); [|exact K].
    destruct K as [K1 K2 K3 K4 K5 K6 K7]. constructor; assumption.
  - unfold edit_student.
    destruct (get_user s student_id); [|exact H].
    destruct (Role_eqb _ _); [|exact H].
    cbn [negb snd]. now apply Keys_update_user.
  - unfold delete_student.
    destruct (get_user s student_id); [|exact H].
    destruct (Role_eqb _ _); [|exact H].
    cbn [negb snd]. now apply Keys_update_user.
  - unfold toggle_student_status.
    destruct (get_user s student_id); [|exact H].
    destruct (Role_eqb _ _); [|exact H].
    cbn [negb snd]. now apply Keys_update_user.
  - unfold add_balance.
    destruct (get_user s student_id); [|exact H].
    cbn [snd]. now apply Keys_apply_ledger.
  - unfold api_add_balance.
    destruct (amount <=? 0); [exact H|].
    destruct (get_user s student_id); [|exact H].
    cbn [snd]. now apply Keys_apply_ledger.
  - unfold manage_meals.
    destruct (meal_by_slot s meal_date meal_type) eqn:E; [exact H|].
    cbn [snd]. now apply Keys_add_meal.
  - unfold edit_meal.
    destruct (get_meal s meal_id) as [m|] eqn:Hm; [|exact H].
    destruct (other_meal_by_slot s meal_date meal_type meal_id) eqn:E;
      [exact H|].
    cbn [snd]. apply find_In in Hm. destruct Hm as [_ Hm].
    apply Z.eqb_eq in Hm. rewrite Hm. now apply Keys_edit_meal.
  - unfold delete_meal.
    destruct (get_meal s meal_id); [|exact H].
    destruct (Nat.ltb _ _); [exact H|].
    cbn [snd]. now apply Keys_delete_meal_row.
  - unfold toggle_meal.
    destruct (get_meal s meal_id); [|exact H].
    cbn [snd]. now apply Keys_toggle_meal.
  - unfold process_scan.
    destruct (student_by_username s roll_number) as [st|] eqn:Hs;
      [|exact H].
    destruct (User.is_active st); [|exact H]. cbn [negb].
    destruct (get_meal s meal_id) as [m|]; [|exact H].
    destruct (attendance_of s (User.id st) (Meal.id m)); [exact H|].
    destruct (User.wallet_balance st <? Meal.price m); [exact H|].
    cbn [snd]. apply Keys_add_attendance.
    + apply Inv_apply_ledger; [|exact HI]. apply find_In in Hs. tauto.
    + now apply Keys_apply_ledger.
  - unfold request_refund.
    destruct (get_user s current_user_id) as [cu|]; [|exact H].
    destruct (Role_eqb _ _); [|exact H]. cbn [negb].
    destruct (get_attendance s attendance_id) as [a|]; [|exact H].
    destruct (Attendance.user_id a =? User.id cu); [|exact H]. cbn [negb].
    destruct (refund_request_for s attendance_id) eqn:E; [exact H|].
    destruct (hours_24 <? _); [exact H|].
    cbn [snd]. now apply Keys_add_refund_request.
  - unfold process_refund.
    destruct (get_refund_request s request_id) as [r|]; [|exact H].
    destruct (Status_eqb _ _); [|exact H]. cbn [negb].
    destruct (is_action action "approve").
    + destruct (get_user s (RefundRequest.user_id r)); [|exact H].
      destruct (get_attendance s (RefundRequest.attendance_id r)) as [a|];
        [|exact H].
      destruct (get_meal s (Attendance.meal_id a)); [|exact H].
      cbn [snd]. apply Keys_update_refund_request; try reflexivity.
      now apply Keys_apply_ledger.
    + destruct (is_action action "reject"); [|exact H].
      cbn [snd]. now apply Keys_update_refund_request.
Qed.

Lemma Keys_handle c q s : Inv s -> Keys s -> Keys (snd (handle c q s)).
Proof.
  intros HI H. unfold handle.
  destruct q; apply Keys_dispatch; try assumption;
    solve [now apply Inv_deactivate_past_meals
          |now apply Keys_deactivate_past_meals].
Qed.

Lemma reachable_Keys s : reachable s -> Keys s.
Proof.
  induction 1 as [|c q s Hr IH]; [exact Keys_empty|].
  apply Keys_handle; [now apply reachable_Inv|exact IH].
Qed.

(** ** Ledger arithmetic *)







(** ** Revenue reports *)






(** ** Roll numbers *)

(** X5. In a reachable database no two accounts share a user name, so the
    lookup by user name returns the account itself. A registration whose
    roll number differs from a registered one only in letter case is
    refused as already registered and changes nothing. *)
Theorem roll_numbers_are_unique :
  (forall s u,
     reachable s -> In u (users s) ->
     user_by_username s (User.username u) = Some u)
  /\ (forall s now name roll room b now' name' roll' room' b',
        fst (register_student s now name roll room b)
        = StudentRegistered name ->
        roll_pattern_match roll' = true ->
        upper roll' = upper roll ->
        let s1 := snd (register_student s now name roll room b) in
        register_student s1 now' name' roll' room' b'
        = (RollNumberAlreadyRegistered, s1)).
Proof.
  split.
  - intros s u Hr Hin. apply reachable_Keys in Hr.
    destruct (find_exists
                (fun v => String.eqb (User.username v) (User.username u))
                (users s) u Hin (String.eqb_refl _)) as [v Hv].
    unfold user_by_username. rewrite Hv. f_equal.
    apply find_In in Hv. destruct Hv as [Hvin E].
    apply String.eqb_eq in E.
    exact (NoDup_map_inj User.username _ _ _ (keys_usernames s Hr)
             Hvin Hin E).
  - intros s now0 name roll room b now' name' roll' room' b' Hok Hpat Hup s1.
    subst s1. unfold register_student in Hok |- *.
    destruct (roll_pattern_match roll); [|discriminate Hok].
    cbn [negb] in *.
    destruct (user_by_username s (upper roll)) eqn:Hfree;
      [discriminate Hok|].
    cbn [snd]. rewrite Hpat. cbn [negb]. rewrite Hup.
    set (s1 := if 0 <? b then _ else _).
    assert (Hfound : user_by_username s1 (upper roll)
                     = Some (User.mk (users_id_seq s) (upper roll) name
                               RoleStudent room b now0 true)).
    { assert (Hus : users s1 = users s ++
                [User.mk (users_id_seq s) (upper roll) name RoleStudent
                   room b now0 true])
        by (subst s1; destruct (0 <? b); reflexivity).
      unfold user_by_username in *. rewrite Hus, find_app, Hfree.
      cbn [find User.username]. now rewrite String.eqb_refl. }
    now rewrite Hfound.
Qed.

(** ** Meal slots *)

Lemma get_meal_unique s m :
  Keys s -> In m (meals s) -> get_meal s (Meal.id m) = Some m.
Proof.
  intros K Hin.
  destruct (find_exists (fun x => Meal.id x =? Meal.id m) (meals s) m Hin
              (Z.eqb_refl _)) as [y Hy].
  unfold get_meal. rewrite Hy. f_equal.
  apply find_In in Hy. destruct Hy as [Hyin E]. apply Z.eqb_eq in E.
  exact (NoDup_map_inj Meal.id _ _ _ (keys_meal_nodup s K) Hyin Hin E).
Qed.


Lemma get_meal_update_meal s i f j :
  (forall m, Meal.id (f m) = Meal.id m) ->
  get_meal (update_meal i f s) j =
  option_map (fun m => if Meal.id m =? i then f m else m) (get_meal s j).
Proof.
  intros Hf. unfold get_meal, update_meal; cbn [meals].
  apply find_map_stable. intros m.
  destruct (Meal.id m =? i); [now rewrite Hf|reflexivity].
Qed.

(** X7. Editing a meal of a reachable database while keeping its own slot
    is accepted (the duplicate check leaves the meal itself out) and
    stores the new price, menu and flag under the same id; moving a meal
    onto the slot of another meal is refused and changes nothing. In
    neither case are accounts, ledger or attendances touched. *)
Theorem edit_meal_slot_check s meal_id meal :
  reachable s ->
  get_meal s meal_id = Some meal ->
  (forall price menu_items is_active,
     let out := edit_meal s meal_id (Meal.date meal) (Meal.meal_type meal)
                          price menu_items is_active in
     fst out = MealUpdated
     /\ get_meal (snd out) meal_id
        = Some (Meal.mk meal_id (Meal.date meal) (Meal.meal_type meal) price
                        (menu_or_none menu_items) is_active
                        (Meal.created_at meal))
     /\ users (snd out) = users s
     /\ wallet_transactions (snd out) = wallet_transactions s
     /\ attendance (snd out) = attendance s)
  /\ (forall other price menu_items is_active,
        In other (meals s) -> Meal.id other <> meal_id ->
        edit_meal s meal_id (Meal.date other) (Meal.meal_type other) price
                  menu_items is_active
        = (AnotherMealExists, s)).
Proof.
  intros Hr Hm. apply reachable_Keys in Hr.
  pose proof (find_In _ _ _ Hm) as [Hin Hid]. apply Z.eqb_eq in Hid.
  split.
  - intros price menu_items is_active out. subst out. unfold edit_meal.
    rewrite Hm.
    destruct (other_meal_by_slot s (Meal.date meal) (Meal.meal_type meal)
                meal_id) as [m'|] eqn:E.
    + exfalso. apply find_In in E. destruct E as [Hin' E].
      apply andb_prop in E. destruct E as [E Hne].
      apply andb_prop in E. destruct E as [Ed Et].
      apply Z.eqb_eq in Ed. apply String.eqb_eq in Et.
      assert (m' = meal).
      { apply (NoDup_map_inj meal_slot _ _ _ (keys_meal_slots s Hr)
                 Hin' Hin). unfold meal_slot. now rewrite Ed, Et. }
      subst m'. rewrite Hid, Z.eqb_refl in Hne. discriminate.
    + cbn [fst snd]. split; [reflexivity|]. split; [|repeat split].
      rewrite get_meal_update_meal by reflexivity.
      rewrite Hm. cbn [option_map]. now rewrite Hid, Z.eqb_refl.
  - intros other price menu_items is_active Ho Hne. unfold edit_meal.
    rewrite Hm.
    destruct (find_exists
                (fun m => (Meal.date m =? Meal.date other)
                          && String.eqb (Meal.meal_type m)
                                        (Meal.meal_type other)
                          && negb (Meal.id m =? meal_id))
                (meals s) other Ho) as [y Hy].
    + rewrite Z.eqb_refl, String.eqb_refl. apply Z.eqb_neq in Hne.
      now rewrite Hne.
    + unfold other_meal_by_slot. now rewrite Hy.
Qed.

(** ** One refund request per attendance *)

Lemma refund_request_for_handle c q s a r :
  refund_request_for s a = Some r ->
  exists r', refund_request_for (snd (handle c q s)) a = Some r'.
Proof.
  intros Hr.
  pose proof (handle_refund_requests_frame c q s) as Hframe.
  destruct q;
    try (exists r; unfold refund_request_for in *; rewrite Hframe;
         exact Hr).
  - unfold handle, dispatch, request_refund.
    repeat break_match; try (exists r; exact Hr).
    exists r. unfold refund_request_for, add_refund_request.
    cbn [snd refund_requests]. now apply find_app_some.
  - assert (Hupd : forall st remarks now0 i s0,
      refund_requests s0 = refund_requests s ->
      exists r',
        refund_request_for
          (update_refund_request i
             (RefundRequest.resolve st remarks now0) s0) a = Some r').
    { intros st remarks0 now0 i s0 E.
      unfold refund_request_for, update_refund_request.
      cbn [refund_requests]. rewrite E, find_map_stable.
      - unfold refund_request_for in Hr. rewrite Hr. cbn. eauto.
      - intros x. now destruct (RefundRequest.id x =? i). }
    unfold handle, dispatch, process_refund.
    repeat break_match; try (exists r; exact Hr);
      cbn [snd]; now apply Hupd.
Qed.

Lemma refund_request_for_run l s a r :
  refund_request_for s a = Some r ->
  exists r', refund_request_for (run l s) a = Some r'.
Proof.
  revert s r. induction l as [|[c q] l IH]; intros s r H; [eauto|].
  cbn [run]. destruct (refund_request_for_handle c q s a r H) as [r' Hr'].
  exact (IH _ r' Hr').
Qed.

(** X8. In a reachable database at most one refund request names an
    attendance. Once an attendance has a refund request, of whatever
    status, every later refund request for it is refused without a
    change, after any sequence of requests in between. *)
Theorem one_refund_request_per_attendance :
  (forall s r1 r2,
     reachable s ->
     In r1 (refund_requests s) -> In r2 (refund_requests s) ->
     RefundRequest.attendance_id r1 = RefundRequest.attendance_id r2 ->
     r1 = r2)
  /\ (forall s r l now uid reason,
        In r (refund_requests s) ->
        let s' := run l s in
        let out := request_refund s' now uid
                     (RefundRequest.attendance_id r) reason in
        success (fst out) = false /\ snd out = s').
Proof.
  split.
  - intros s r1 r2 Hr H1 H2.
    exact (NoDup_map_inj RefundRequest.attendance_id _ _ _
             (keys_refund_nodup s (reachable_Keys s Hr)) H1 H2).
  - intros s r l now0 uid reason Hin s' out. subst out s'.
    destruct (find_exists
                (fun x => RefundRequest.attendance_id x
                          =? RefundRequest.attendance_id r)
                (refund_requests s) r Hin (Z.eqb_refl _)) as [r0 H0].
    destruct (refund_request_for_run l s _ r0 H0) as [r' Hr'].
    unfold request_refund. rewrite Hr'.
    repeat break_match; split; reflexivity.
Qed.

(** ** The list of refundable attendances *)

Lemma In_insert_by_scanned_at a x l :
  In a (insert_by_scanned_at x l) <-> a = x \/ In a l.
Proof.
  induction l as [|b l IH]; cbn [insert_by_scanned_at].
  - cbn. intuition.
  - destruct (Attendance.scanned_at b <? Attendance.scanned_at x).
    + cbn. intuition.
    + cbn [In]. rewrite IH. intuition.
Qed.

Lemma In_order_by_scanned_at_desc a l :
  In a (order_by_scanned_at_desc l) <-> In a l.
Proof.
  induction l as [|b l IH]; cbn [order_by_scanned_at_desc fold_right];
    [tauto|].
  fold (order_by_scanned_at_desc l). rewrite In_insert_by_scanned_at, IH.
  cbn. intuition.
Qed.

Lemma get_attendance_unique s a :
  Keys s -> In a (attendance s) ->
  get_attendance s (Attendance.id a) = Some a.
Proof.
  intros K Hin.
  destruct (find_exists (fun x => Attendance.id x =? Attendance.id a)
              (attendance s) a Hin (Z.eqb_refl _)) as [y Hy].
  unfold get_attendance. rewrite Hy. f_equal.
  apply find_In in Hy. destruct Hy as [Hyin E]. apply Z.eqb_eq in E.
  exact (NoDup_map_inj Attendance.id _ _ _ (keys_att_nodup s K) Hyin Hin E).
Qed.

(** X9. In a reachable database the attendances that the refund page of a
    logged-in account lists as eligible are exactly the attendances for
    which a refund request of that account, made at the same moment, is
    accepted; page and handler agree on the 24-hour boundary. *)
Theorem eligible_attendances_are_refundable s now uid cu a reason :
  reachable s ->
  get_user s uid = Some cu ->
  (In a (eligible_attendances s now uid)
   <-> In a (attendance s)
       /\ fst (request_refund s now uid (Attendance.id a) reason)
          = RefundSubmitted).
Proof.
  intros Hr Hu.
  pose proof (reachable_Inv s Hr) as HI.
  pose proof (reachable_Keys s Hr) as HK.
  pose proof (get_user_id _ _ _ Hu) as Hid.
  unfold eligible_attendances.
  rewrite In_order_by_scanned_at_desc, filter_In.
  split.
  - intros [Hin Hc]. split; [exact Hin|].
    apply andb_prop in Hc. destruct Hc as [Hc Hfree].
    apply andb_prop in Hc. destruct Hc as [Hown Hwin].
    apply Z.eqb_eq in Hown. apply Z.leb_le in Hwin.
    pose proof (get_attendance_unique s a HK Hin) as Ha.
    assert (Hrole : User.role cu = RoleStudent).
    { apply (attendance_owner_is_student s uid cu _ a HI Hu Ha). lia. }
    unfold request_refund. rewrite Hu, Hrole, Ha. cbn [Role_eqb negb].
    replace (Attendance.user_id a =? User.id cu) with true
      by (symmetry; apply Z.eqb_eq; lia).
    cbn [negb].
    destruct (refund_request_for s (Attendance.id a)); [discriminate|].
    replace (hours_24 <? now - Attendance.scanned_at a) with false
      by (symmetry; apply Z.ltb_ge; lia).
    reflexivity.
  - intros [Hin Hok]. split; [exact Hin|].
    pose proof (get_attendance_unique s a HK Hin) as Ha.
    unfold request_refund in Hok. rewrite Hu, Ha in Hok.
    destruct (Role_eqb (User.role cu) RoleStudent); [|discriminate Hok].
    cbn [negb] in Hok.
    destruct (Attendance.user_id a =? User.id cu) eqn:Hown;
      [|discriminate Hok].
    cbn [negb] in Hok.
    destruct (refund_request_for s (Attendance.id a)); [discriminate Hok|].
    destruct (hours_24 <? now - Attendance.scanned_at a) eqn:Hwin;
      [discriminate Hok|].
    apply Z.eqb_eq in Hown. apply Z.ltb_ge in Hwin.
    rewrite Bool.andb_true_r. apply andb_true_intro. split.
    + apply Z.eqb_eq. lia.
    + apply Z.leb_le. lia.
Qed.

(** ** Deactivating and reactivating a student *)

Lemma student_by_username_In s roll st :
  student_by_username s roll = Some st ->
  In st (users s) /\ User.username st = roll /\ User.role st = RoleStudent.
Proof.
  intros H. apply find_In in H. destruct H as [Hin H].
  apply andb_prop in H. destruct H as [Hn Hrole].
  apply String.eqb_eq in Hn. split; [exact Hin|]. split; [exact Hn|].
  now destruct (User.role st).
Qed.


(** X11. Toggling the status of an account twice gives back the reachable
    database it started from, whatever the id. *)
Theorem toggle_student_status_twice s student_id :
  reachable s ->
  snd (toggle_student_status (snd (toggle_student_status s student_id))
                             student_id)
  = s.
Proof.
  intros Hr. apply reachable_Inv in Hr.
  unfold toggle_student_status at 2.
  destruct (get_user s student_id) as [st|] eqn:Hu.
  2:{ cbn [snd]. unfold toggle_student_status. now rewrite Hu. }
  destruct (Role_eqb (User.role st) RoleStudent) eqn:Hrole.
  2:{ cbn [negb snd]. unfold toggle_student_status.
      now rewrite Hu, Hrole. }
  cbn [negb snd].
  pose proof (get_user_id _ _ _ Hu) as Hid.
  unfold toggle_student_status.
  rewrite get_user_update_user by reflexivity.
  rewrite Hu. cbn [option_map]. rewrite Hid, Z.eqb_refl.
  cbn [User.role User.set_is_active User.id User.is_active User.name].
  rewrite Hrole. cbn [negb snd]. rewrite Hid, Bool.negb_involutive.
  unfold update_user. cbn [users wallet_transactions meals attendance
    refund_requests users_id_seq wallet_transactions_id_seq meals_id_seq
    attendance_id_seq refund_requests_id_seq].
  rewrite map_map.
  replace (map _ (users s)) with (users s); [now destruct s|].
  rewrite <- (map_id (users s)) at 1. apply map_ext_in.
  intros u Hin. destruct (User.id u =? student_id) eqn:E;
    cbn [User.id User.set_is_active]; rewrite E; [|reflexivity].
  apply Z.eqb_eq in E.
  pose proof (get_user_unique s u (inv_user_nodup s Hr) Hin) as Hu'.
  rewrite E, Hu in Hu'. inversion Hu'; subst st.
  now destruct u.
Qed.

(** ** Initialising the database *)

(** X12. [init_database] creates the administrator, with role admin and
    a zero balance, exactly when no account is named admin; run again
    at any later time it finds the account and changes nothing. *)
Theorem init_database_once s now now' :
  let s1 := snd (init_database s now) in
  (exists u, user_by_username s1 "admin" = Some u)
  /\ init_database s1 now' = (AdminUserExists, s1)
  /\ (user_by_username s "admin" = None ->
      users s1 = users s ++
                 [User.mk (users_id_seq s) "admin" "Administrator" RoleAdmin
                          None 0 now true]
      /\ wallet_transactions s1 = wallet_transactions s)
  /\ (user_by_username s "admin" <> None -> s1 = s).
Proof.
  cbv zeta. destruct (user_by_username s "admin") as [u|] eqn:E.
  - assert (H1 : init_database s now = (AdminUserExists, s))
      by (unfold init_database; now rewrite E).
    rewrite H1. cbn [snd]. split; [eauto|].
    split; [unfold init_database; now rewrite E|].
    split; [discriminate|reflexivity].
  - assert (H1 : init_database s now
                 = (AdminUserCreated,
                    add_user "admin" "Administrator" RoleAdmin None 0
                             now s))
      by (unfold init_database; now rewrite E).
    rewrite H1. cbn [snd].
    assert (Hfound : user_by_username
                       (add_user "admin" "Administrator" RoleAdmin None 0
                                 now s) "admin"
                     = Some (User.mk (users_id_seq s) "admin"
                               "Administrator" RoleAdmin None 0 now true)).
    { unfold user_by_username, add_user in *. cbn [users].
      rewrite find_app, E. reflexivity. }
    split; [eauto|]. split.
    + unfold init_database. now rewrite Hfound.
    + split; [intros _; split; reflexivity|congruence].
Qed.

(** ** The expired-meal sweep *)

Lemma deactivate_past_meals_meals today s :
  meals (deactivate_past_meals today s) =
  map (fun m => if (Meal.date m <? today) && Meal.is_active m
                then Meal.set_is_active false m else m) (meals s).
Proof. reflexivity. Qed.

(** X13. The sweep clears the active flag of the active meals dated before
    today and changes nothing else: afterwards no active meal lies in the
    past, the meals of today and later are as they were (so the list of
    today's meals is the same), a second sweep of the same or an earlier
    day changes nothing, and no id, date, type or price has moved. *)
Theorem deactivate_past_meals_sweep today s :
  let s1 := deactivate_past_meals today s in
  (forall m, In m (meals s1) -> Meal.is_active m = true ->
             today <= Meal.date m)
  /\ (forall m, In m (meals s) -> today <= Meal.date m -> In m (meals s1))
  /\ today_meals s1 today = today_meals s today
  /\ (forall day, day <= today -> deactivate_past_meals day s1 = s1)
  /\ map (fun m => (Meal.id m, meal_slot m, Meal.price m)) (meals s1)
     = map (fun m => (Meal.id m, meal_slot m, Meal.price m)) (meals s)
  /\ users s1 = users s /\ attendance s1 = attendance s.
Proof.
  cbv zeta. split; [|split; [|split; [|split; [|split]]]].
  - intros m Hm Ha. rewrite deactivate_past_meals_meals in Hm.
    apply in_updated in Hm. destruct Hm as [m0 [_ ->]].
    destruct (Meal.date m0 <? today) eqn:E; cbn [andb] in *.
    + destruct (Meal.is_active m0) eqn:Ea; cbn in Ha; congruence.
    + apply Z.ltb_ge in E. exact E.
  - intros m Hm Hd. rewrite deactivate_past_meals_meals.
    apply in_map_iff. exists m. split; [|exact Hm].
    replace (Meal.date m <? today) with false
      by (symmetry; apply Z.ltb_ge; lia).
    reflexivity.
  - unfold today_meals. rewrite deactivate_past_meals_meals.
    induction (meals s) as [|m l IH]; [reflexivity|].
    cbn [map filter]. rewrite IH.
    destruct (Meal.date m =? today) eqn:E.
    + apply Z.eqb_eq in E.
      replace (Meal.date m <? today) with false
        by (symmetry; apply Z.ltb_ge; lia).
      cbn [andb]. now rewrite E, Z.eqb_refl.
    + destruct ((Meal.date m <? today) && Meal.is_active m);
        cbn [Meal.date Meal.set_is_active]; now rewrite E.
  - intros day Hday. unfold deactivate_past_meals at 1 3.
    cbn [users wallet_transactions meals attendance refund_requests
         users_id_seq wallet_transactions_id_seq meals_id_seq
         attendance_id_seq refund_requests_id_seq deactivate_past_meals].
    f_equal. rewrite map_map. apply map_ext. intros m.
    destruct (Meal.date m <? today) eqn:E.
    + destruct (Meal.is_active m) eqn:Ea; cbn [andb].
      * cbn [Meal.date Meal.is_active Meal.set_is_active].
        now rewrite Bool.andb_false_r.
      * now rewrite Ea, Bool.andb_false_r.
    + cbn [andb]. apply Z.ltb_ge in E.
      replace (Meal.date m <? day) with false
        by (symmetry; apply Z.ltb_ge; lia).
      reflexivity.
  - rewrite deactivate_past_meals_meals, map_map. apply map_ext.
    intros m. now destruct ((Meal.date m <? today) && Meal.is_active m).
  - split; reflexivity.
Qed.

(** ** Creating and deleting a meal *)




(** ** A scan and its refund *)




(** ** The roll-number pattern *)






(** ** Letter case of roll numbers *)

Lemma upper_char_idempotent c : upper_char (upper_char c) = upper_char c.
Proof.
  destruct c as [[] [] [] [] [] [] [] []]; vm_compute; reflexivity.
Qed.

Lemma upper_idempotent r : upper (upper r) = upper r.
Proof.
  induction r as [|c r IH]; cbn [upper]; [reflexivity|].
  now rewrite upper_char_idempotent, IH.
Qed.

Lemma upper_names_add_user n nm r room bal now s :
  (r = RoleStudent -> upper n = n) ->
  upper_names s -> upper_names (add_user n nm r room bal now s).
Proof.
  intros Hn H u Hu Hr. cbn [users add_user] in Hu.
  apply in_app_or in Hu. destruct Hu as [Hu|[<-|[]]]; [now apply H|].
  cbn in *. now apply Hn.
Qed.

Lemma upper_names_update_user i f s :
  (forall u, User.username (f u) = User.username u) ->
  (forall u, User.role (f u) = User.role u) ->
  upper_names s -> upper_names (update_user i f s).
Proof.
  intros Hn Hr H u Hu Hrole. apply in_updated in Hu.
  destruct Hu as [v [Hv ->]].
  destruct (User.id v =? i); [|now apply H].
  rewrite Hn. rewrite Hr in Hrole. now apply H.
Qed.

Lemma upper_names_same s s' :
  users s' = users s -> upper_names s -> upper_names s'.
Proof. intros E H u Hu. rewrite E in Hu. now apply H. Qed.

Lemma upper_names_dispatch c q s :
  upper_names s -> upper_names (snd (dispatch c q s)).
Proof.
  intros H. destruct q; unfold dispatch.
  - unfold init_database.
    destruct (user_by_username s "admin"); [exact H|].
    cbn [snd]. apply upper_names_add_user; [discriminate|exact H].
  - unfold register_student.
    destruct (roll_pattern_match roll_number); [|exact H]. cbn [negb].
    destruct (user_by_username s (upper roll_number)); [exact H|].
    cbn [snd].
    apply (upper_names_same
             (add_user (upper roll_number) name RoleStudent room_number
                       initial_balance (now c) s)).
    + now destruct (0 <? initial_balance).
    + apply upper_names_add_user; [|exact H].
      intros _. apply upper_idempotent.
  - unfold edit_student. repeat break_match; try exact H.
    cbn [snd]. now apply upper_names_update_user.
  - unfold delete_student. repeat break_match; try exact H.
    cbn [snd]. now apply upper_names_update_user.
  - unfold toggle_student_status. repeat break_match; try exact H.
    cbn [snd]. now apply upper_names_update_user.
  - unfold add_balance. repeat break_match; try exact H.
    cbn [snd].
    apply (upper_names_update_user (User.id t)
             (User.set_wallet_balance (User.wallet_balance t + amount)));
      auto.
  - unfold api_add_balance. repeat break_match; try exact H.
    cbn [snd].
    apply (upper_names_update_user (User.id t)
             (User.set_wallet_balance (User.wallet_balance t + amount)));
      auto.
  - unfold manage_meals. repeat break_match; exact H.
  - unfold edit_meal. repeat break_match; exact H.
  - unfold delete_meal. repeat break_match; exact H.
  - unfold toggle_meal. repeat break_match; exact H.
  - unfold process_scan. repeat break_match; try exact H.
    cbn [snd].
    apply (upper_names_update_user (User.id t)
             (User.set_wallet_balance
                (User.wallet_balance t + - Meal.price t0)));
      auto.
  - unfold request_refund. repeat break_match; exact H.
  - unfold process_refund. repeat break_match; try exact H.
    cbn [snd].
    apply (upper_names_update_user (User.id t0)
             (User.set_wallet_balance
                (User.wallet_balance t0 + RefundRequest.amount t)));
      auto.
Qed.

Lemma reachable_upper_names s : reachable s -> upper_names s.
Proof.
  induction 1 as [|c q s Hr IH]; [intros u []|].
  unfold handle. destruct q; apply upper_names_dispatch; exact IH.
Qed.

(** X17. Student accounts of a reachable database are stored under the
    upper-case form of their roll number, and the scan looks the roll
    number up as it is given: a roll number that contains a lower-case
    letter is answered as student not found, without a change. *)
Theorem process_scan_is_case_sensitive s now roll meal_id :
  reachable s ->
  (forall u, In u (users s) -> User.role u = RoleStudent ->
             upper (User.username u) = User.username u)
  /\ (upper roll <> roll ->
      process_scan s now roll meal_id = (StudentNotFound, s)).
Proof.
  intros Hr. pose proof (reachable_upper_names s Hr) as H.
  split; [exact H|]. intros Hcase. unfold process_scan.
  destruct (student_by_username s roll) as [st|] eqn:E; [|reflexivity].
  destruct (student_by_username_In _ _ _ E) as (Hin & Hn & Hrole).
  exfalso. apply Hcase. rewrite <- Hn. now apply H.
Qed.

(** ** The two top-up handlers *)


(** ** No overdraft *)
















(** X20. In a reachable database every refund request has its account,
    its attendance and the attendance's meal, so resolving a request never
    ends in an internal error. *)
Theorem process_refund_never_errors s now rid action remarks :
  reachable s ->
  fst (process_refund s now rid action remarks) <> InternalError500
  /\ (forall r,
        In r (refund_requests s) ->
        get_user s (RefundRequest.user_id r) <> None
        /\ exists a,
             get_attendance s (RefundRequest.attendance_id r) = Some a
             /\ get_meal s (Attendance.meal_id a) <> None).
Proof.
  intros Hr. apply reachable_Inv in Hr.
  assert (Hrefs : forall r,
    In r (refund_requests s) ->
    get_user s (RefundRequest.user_id r) <> None
    /\ exists a,
         get_attendance s (RefundRequest.attendance_id r) = Some a
         /\ get_meal s (Attendance.meal_id a) <> None).
  { intros r Hin.
    destruct (inv_refund_att s Hr r Hin) as (a & Ha & _ & Hown).
    pose proof (proj1 (find_In _ _ _ Ha)) as Hain.
    destruct (inv_att_user s Hr a Hain) as (u & Hu & _).
    destruct (inv_att_meal s Hr a Hain) as (m & Hm & Em).
    split; [rewrite Hown, Hu; discriminate|].
    exists a. split; [exact Ha|].
    destruct (find_exists (fun x => Meal.id x =? Attendance.meal_id a)
                (meals s) m Hm) as [y Hy]; [now apply Z.eqb_eq|].
    unfold get_meal. rewrite Hy. discriminate. }
  split; [|exact Hrefs].
  unfold process_refund.
  destruct (get_refund_request s rid) as [r|] eqn:E; [|discriminate].
  destruct (Status_eqb _ _); [|discriminate]. cbn [negb].
  apply find_In in E. destruct E as [Hin _].
  destruct (Hrefs r Hin) as (Hu & a & Ha & Hm).
  destruct (is_action action "approve").
  - rewrite Ha.
    destruct (get_user s (RefundRequest.user_id r)); [|contradiction].
    destruct (get_meal s (Attendance.meal_id a)); [|contradiction].
    discriminate.
  - destruct (is_action action "reject"); discriminate.
Qed.

(** ** The further theorems on the sample runs *)




(** Registering 2024-Cs-562 after 2024-cs-562. *)
Lemma roll_numbers_are_unique_witness :
  let s1 := snd (register_student empty_db 1 "Asha Rao" "2024-cs-562" None
                                  0) in
  register_student s1 2 "Asha R." "2024-Cs-562" None 100
  = (RollNumberAlreadyRegistered, s1).
Proof.
  destruct roll_numbers_are_unique as [_ H].
  exact (H empty_db 1 "Asha Rao"%string "2024-cs-562"%string None 0 2
           "Asha R."%string "2024-Cs-562"%string None 100
           eq_refl eq_refl eq_refl).
Defined.


(** The lunch is repriced to 60.00 on its own slot. *)
Lemma edit_meal_slot_check_witness :
  fst (edit_meal canteen_db 1 day0 "lunch" 6000 "rice, dal, curd" true)
  = MealUpdated.
Proof.
  destruct (edit_meal_slot_check canteen_db 1 lunch reachable_canteen_db
              eq_refl) as [H _].
  exact (proj1 (H 6000 "rice, dal, curd"%string true)).
Defined.

(** After her request was rejected Asha cannot ask again. *)
Lemma one_refund_request_per_attendance_witness :
  let s' := run [(clk 6, ProcessRefund 1 (Some "reject"%string) "no")]
                claimed_db in
  success (fst (request_refund s' (now (clk 7)) 2 1 "again")) = false
  /\ snd (request_refund s' (now (clk 7)) 2 1 "again") = s'.
Proof.
  destruct one_refund_request_per_attendance as [_ H].
  apply (H claimed_db lunch_refund
           [(clk 6, ProcessRefund 1 (Some "reject"%string) "no"%string)]).
  vm_compute. auto.
Defined.

(** Asha's lunch is listed as refundable 24 hours after the scan. *)
Lemma eligible_attendances_are_refundable_witness :
  In lunch_attendance
     (eligible_attendances scanned_db (now (clk 4) + hours_24) 2)
  <-> In lunch_attendance (attendance scanned_db)
      /\ fst (request_refund scanned_db (now (clk 4) + hours_24) 2
                             (Attendance.id lunch_attendance) "late")
         = RefundSubmitted.
Proof.
  exact (eligible_attendances_are_refundable scanned_db
           (now (clk 4) + hours_24) 2 (User.set_wallet_balance 0 asha)
           lunch_attendance "late" reachable_scanned_db eq_refl).
Defined.


Lemma toggle_student_status_twice_witness :
  snd (toggle_student_status (snd (toggle_student_status canteen_db 2)) 2)
  = canteen_db.
Proof.
  exact (toggle_student_status_twice canteen_db 2 reachable_canteen_db).
Defined.

(** The first run on the empty database creates the administrator. *)
Lemma init_database_once_witness :
  users (snd (init_database empty_db 0))
  = [User.mk 1 "admin" "Administrator" RoleAdmin None 0 0 true]
  /\ init_database (snd (init_database empty_db 0)) 9
     = (AdminUserExists, snd (init_database empty_db 0)).
Proof.
  destruct (init_database_once empty_db 0 9) as (_ & H2 & H3 & _).
  split; [exact (proj1 (H3 eq_refl))|exact H2].
Defined.

(** The day after: the lunch is swept, nothing is listed for that day. *)
Lemma deactivate_past_meals_sweep_witness :
  today_meals stale_db (day0 + 1) = today_meals canteen_db (day0 + 1)
  /\ deactivate_past_meals day0 stale_db = stale_db.
Proof.
  destruct (deactivate_past_meals_sweep (day0 + 1) canteen_db)
    as (_ & _ & H3 & H4 & _).
  split; [exact H3|]. apply H4. vm_compute. discriminate.
Defined.




(** The scanner does not find Asha under her lower-case roll number. *)
Lemma process_scan_is_case_sensitive_witness :
  process_scan canteen_db (now (clk 4)) "2024-cs-562" 1
  = (StudentNotFound, canteen_db).
Proof.
  destruct (process_scan_is_case_sensitive canteen_db (now (clk 4))
              "2024-cs-562" 1 reachable_canteen_db) as [_ H].
  apply H. vm_compute. discriminate.
Defined.



Lemma process_refund_never_errors_witness :
  fst (process_refund claimed_db (now (clk 6)) 1 (Some "approve"%string)
                      "ok")
  <> InternalError500.
Proof.
  exact (proj1 (process_refund_never_errors claimed_db (now (clk 6)) 1
                  (Some "approve"%string) "ok" reachable_claimed_db)).
Defined.
